(** * zmcp: the Python/Colab example script (examples/python_colab_example.py)

    A shallow embedding of the script's [run_zmcp] wrapper and of the call
    sites that use it.

    - A Python [str] is represented by its UTF-8 encoding, a [string] of
      bytes; [len], slicing and iteration on a [str] count code points.
      A lone surrogate, which only the JSON decoder can put into a [str],
      is kept as its three bytes [ED A0..BF xx]; the text of the script
      itself and the text captured from the tool hold none.
    - The values that [json.loads] can build are the type [value].
    - The script runs in a monad that threads a [world] (the processes
      spawned so far and the lines printed so far) and may raise a Python
      exception; what was done before the exception stays done.
    - Standard output encodes as UTF-8: [print] raises
      [UnicodeEncodeError] on a decoded text that holds a lone surrogate,
      and prints every other line.
    - The external tool, the JSON decoder of the standard library and the
      builtin [str()] are parameters of the development. *)

From Stdlib Require Import ZArith List String Ascii Bool Arith Lia.
Import ListNotations.
Local Open Scope string_scope.
Set Warnings "-register-all".

(** ** Python values *)

(** What [json.loads] returns: [None], [bool], [int], [float] (kept as its
    IEEE-754 binary64 bit pattern), [str], [list], and [dict] with string
    keys in insertion order, each key once. *)
Inductive value : Type :=
| VNone
| VBool (b : bool)
| VInt (n : Z)
| VFloat (bits : Z)
| VStr (s : string)
| VList (items : list value)
| VDict (fields : list (string * value)).

(** The exceptions that can arise in the script; every one of them is a
    subclass of [Exception]. *)
Inductive exn : Type :=
| Exception (msg : string)
| KeyError (key : value)
| IndexError
| TypeError
| AttributeError
| ValueError
| JSONDecodeError
| UnicodeEncodeError
| OSError.

Inductive result (A : Type) : Type :=
| Ok (a : A)
| Raise (e : exn).
Arguments Ok {A} a.
Arguments Raise {A} e.

(** [subprocess.CompletedProcess] with [capture_output=True, text=True]. *)
Record CompletedProcess : Type := mkCompleted {
  returncode : Z;
  stdout : string;
  stderr : string
}.

(** ** Strings *)

(** The double-quote character and a single byte as a string. *)
Definition dquote : ascii := "034"%char.
Definition str1 (c : ascii) : string := String c EmptyString.

(** [needle in s] on two [str]. *)
Fixpoint str_contains (needle s : string) : bool :=
  String.prefix needle s ||
  match s with
  | EmptyString => false
  | String _ rest => str_contains needle rest
  end.

(** The text holds a lone surrogate: a byte [ED] followed by a byte from
    [A0] to [BF]. *)
Fixpoint has_surrogate (s : string) : bool :=
  match s with
  | EmptyString => false
  | String c rest =>
      (Ascii.eqb c "237" &&
       match rest with
       | String c' _ => (160 <=? nat_of_ascii c')%nat && (nat_of_ascii c' <? 192)%nat
       | EmptyString => false
       end)
      || has_surrogate rest
  end.

(** A byte [10xxxxxx] continues a code point. *)
Definition utf8_cont (c : ascii) : bool :=
  let n := nat_of_ascii c in (128 <=? n)%nat && (n <? 192)%nat.

(** The bytes up to the start of the next code point. *)
Fixpoint utf8_tail (s : string) : string * string :=
  match s with
  | EmptyString => (EmptyString, EmptyString)
  | String c rest =>
      if utf8_cont c
      then let '(t, r) := utf8_tail rest in (String c t, r)
      else (EmptyString, s)
  end.

(** [list(s)]: the code points of a [str], each a [str] of length one. *)
Fixpoint utf8_chars (fuel : nat) (s : string) : list string :=
  match fuel, s with
  | S fuel', String c rest =>
      let '(t, r) := utf8_tail rest in String c t :: utf8_chars fuel' r
  | _, _ => []
  end.

Definition py_chars (s : string) : list string := utf8_chars (String.length s) s.

Definition str_join (l : list string) : string :=
  fold_right String.append EmptyString l.

(** ["=" * 60] *)
Fixpoint str_mul (s : string) (n : nat) : string :=
  match n with
  | O => EmptyString
  | S n' => s ++ str_mul s n'
  end.

(** ** Operations on values *)

Definition dict_lookup (k : string) (d : list (string * value)) : option value :=
  match find (fun kv => String.eqb (fst kv) k) d with
  | Some kv => Some (snd kv)
  | None => None
  end.

(** [d[k] = v] on a dict: replace in place or append. *)
Fixpoint dict_set (k : string) (v : value) (d : list (string * value))
  : list (string * value) :=
  match d with
  | [] => [(k, v)]
  | (k', v') :: rest =>
      if String.eqb k' k then (k, v) :: rest else (k', v') :: dict_set k v rest
  end.

(** [v[k]] with a string key. *)
Definition getitem (v : value) (k : string) : result value :=
  match v with
  | VDict d =>
      match dict_lookup k d with
      | Some x => Ok x
      | None => Raise (KeyError (VStr k))
      end
  | _ => Raise TypeError
  end.

(** [v[0]] *)
Definition getitem0 (v : value) : result value :=
  match v with
  | VList l =>
      match l with
      | x :: _ => Ok x
      | [] => Raise IndexError
      end
  | VStr s =>
      match py_chars s with
      | c :: _ => Ok (VStr c)
      | [] => Raise IndexError
      end
  | VDict _ => Raise (KeyError (VInt 0))
  | _ => Raise TypeError
  end.

(** [v.get(k, default)] *)
Definition py_get (v : value) (k : string) (default : value) : result value :=
  match v with
  | VDict d =>
      match dict_lookup k d with
      | Some x => Ok x
      | None => Ok default
      end
  | _ => Raise AttributeError
  end.

(** [v == s] for a [str] [s]. *)
Definition value_eq_str (v : value) (s : string) : bool :=
  match v with
  | VStr t => String.eqb t s
  | _ => false
  end.

(** [needle in v] for a [str] [needle]. *)
Definition py_in (needle : string) (v : value) : result bool :=
  match v with
  | VStr s => Ok (str_contains needle s)
  | VList l => Ok (existsb (fun x => value_eq_str x needle) l)
  | VDict d =>
      Ok (match dict_lookup needle d with Some _ => true | None => false end)
  | _ => Raise TypeError
  end.

(** [len(v)] *)
Definition py_len (v : value) : result Z :=
  match v with
  | VStr s => Ok (Z.of_nat (List.length (py_chars s)))
  | VList l => Ok (Z.of_nat (List.length l))
  | VDict d => Ok (Z.of_nat (List.length d))
  | _ => Raise TypeError
  end.

(** [v[:n]]: a [str] and a [list] can be sliced; any other value raises
    ([TypeError]; for a [dict], [KeyError] from Python 3.12 on). *)
Definition py_slice_to (n : nat) (v : value) : result value :=
  match v with
  | VStr s => Ok (VStr (str_join (firstn n (py_chars s))))
  | VList l => Ok (VList (firstn n l))
  | _ => Raise TypeError
  end.

(** The elements a [for] loop sees. *)
Definition py_iter (v : value) : result (list value) :=
  match v with
  | VStr s => Ok (map VStr (py_chars s))
  | VList l => Ok l
  | VDict d => Ok (map (fun kv => VStr (fst kv)) d)
  | _ => Raise TypeError
  end.

(** Truth value of [v] in an [if]. *)
Definition py_truthy (v : value) : bool :=
  match v with
  | VNone => false
  | VBool b => b
  | VInt n => negb (Z.eqb n 0)
  | VFloat bits => negb (Z.eqb (Z.land bits (Z.ones 63)) 0)
  | VStr s => negb (String.eqb s EmptyString)
  | VList l => match l with [] => false | _ => true end
  | VDict d => match d with [] => false | _ => true end
  end.

(** A command-line argument must be a [str]: [subprocess.run] raises
    [TypeError] for any other decoded value, before a process is started. *)
Definition as_arg (v : value) : result string :=
  match v with
  | VStr s => Ok s
  | _ => Raise TypeError
  end.

(** [enumerate(l, start)] *)
Fixpoint enumerate (start : Z) (l : list value) : list (Z * value) :=
  match l with
  | [] => []
  | x :: rest => (start, x) :: enumerate (start + 1) rest
  end.

(** ** A reference JSON decoder

    The decoder of the standard library is a parameter of the development.
    This one instantiates it in examples.  It follows [json.loads] of
    CPython 3.11 on a [str]: the JSON grammar, the constants [NaN],
    [Infinity] and [-Infinity] beside it, [\u] escapes with surrogate
    pairs joined and lone surrogates kept, numbers with a fraction or an
    exponent rounded to the nearest binary64, and [ValueError] for an
    integer of more than 4300 digits.  The one thing it leaves out is the
    [RecursionError] of a text nested deeper than the interpreter allows. *)
Module Json.

Definition is_ws (c : ascii) : bool :=
  Ascii.eqb c " " || Ascii.eqb c "009" || Ascii.eqb c "010" || Ascii.eqb c "013".

Fixpoint skip_ws (s : string) : string :=
  match s with
  | String c rest => if is_ws c then skip_ws rest else s
  | EmptyString => s
  end.

Fixpoint strip_prefix (p s : string) : option string :=
  match p, s with
  | EmptyString, _ => Some s
  | String a p', String b s' => if Ascii.eqb a b then strip_prefix p' s' else None
  | String _ _, EmptyString => None
  end.

Definition digit_of (c : ascii) : option Z :=
  let n := nat_of_ascii c in
  if (48 <=? n)%nat && (n <=? 57)%nat then Some (Z.of_nat (n - 48)) else None.

Definition hex_of (c : ascii) : option Z :=
  let n := nat_of_ascii c in
  if (48 <=? n)%nat && (n <=? 57)%nat then Some (Z.of_nat (n - 48))
  else if (65 <=? n)%nat && (n <=? 70)%nat then Some (Z.of_nat (n - 55))
  else if (97 <=? n)%nat && (n <=? 102)%nat then Some (Z.of_nat (n - 87))
  else None.

(** The digits at the start of [s]: their value after [acc], how many
    they are after [n], and the rest. *)
Fixpoint lex_digits (s : string) (acc : Z) (n : nat) : Z * nat * string :=
  match s with
  | String c rest =>
      match digit_of c with
      | Some d => lex_digits rest (10 * acc + d)%Z (S n)
      | None => (acc, n, s)
      end
  | EmptyString => (acc, n, s)
  end.

(** The integer part: [0], or a digit [1-9] followed by digits. *)
Definition lex_int (s : string) : option (Z * nat * string) :=
  match s with
  | String c rest =>
      match digit_of c with
      | Some 0%Z => Some (0%Z, 1%nat, rest)
      | Some d => Some (lex_digits rest d 1)
      | None => None
      end
  | EmptyString => None
  end.

(** The fraction, when [s] starts with a point and a digit. *)
Definition lex_frac (s : string) : option (Z * nat * string) :=
  match s with
  | String "." (String c _ as rest) =>
      match digit_of c with
      | Some _ => Some (lex_digits rest 0 0)
      | None => None
      end
  | _ => None
  end.

(** The exponent, when [s] starts with [e] or [E], an optional sign and a
    digit. *)
Definition lex_exp (s : string) : option (Z * string) :=
  match s with
  | String c rest =>
      if Ascii.eqb c "e" || Ascii.eqb c "E" then
        let '(neg, digits) :=
          match rest with
          | String "-" r => (true, r)
          | String "+" r => (false, r)
          | _ => (false, rest)
          end in
        match digits with
        | String d _ =>
            match digit_of d with
            | Some _ =>
                let '(n, _, r) := lex_digits digits 0 0 in
                Some (if neg then (- n)%Z else n, r)
            | None => None
            end
        | EmptyString => None
        end
      else None
  | EmptyString => None
  end.

Definition inf_bits : Z := 0x7FF0000000000000.
Definition nan_bits : Z := 0x7FF8000000000000.
Definition sign_bit : Z := 0x8000000000000000.

(** The binary64 nearest to [m * 10 ^ e], ties to even, for [m >= 0] with
    [digits] decimal digits: its bit pattern without the sign. *)
Definition float_bits (m : Z) (digits : nat) (e : Z) : Z :=
  if (m =? 0)%Z then 0%Z
  else if (310 <? e)%Z then inf_bits
  else if (e + Z.of_nat digits <? -330)%Z then 0%Z
  else
    let n := if (0 <=? e)%Z then (m * 10 ^ e)%Z else m in
    let d := if (0 <=? e)%Z then 1%Z else (10 ^ (- e))%Z in
    let k0 := (Z.log2 n - Z.log2 d - 52)%Z in
    let q0 := if (0 <=? k0)%Z then (n / (d * 2 ^ k0))%Z
              else ((n * 2 ^ (- k0)) / d)%Z in
    let k1 := if (q0 <? 2 ^ 52)%Z then (k0 - 1)%Z else k0 in
    let k := Z.max k1 (-1074) in
    let num := if (0 <=? k)%Z then n else (n * 2 ^ (- k))%Z in
    let den := if (0 <=? k)%Z then (d * 2 ^ k)%Z else d in
    let q := (num / den)%Z in
    let r := (num mod den)%Z in
    let up := (den <? 2 * r)%Z || ((den =? 2 * r)%Z && Z.odd q) in
    let bits := ((k + 1074) * 2 ^ 52 + (if up then q + 1 else q))%Z in
    if (inf_bits <=? bits)%Z then inf_bits else bits.

(** A number: an integer, or a float when it has a fraction or an
    exponent.  With [limit], an integer of more than 4300 digits is
    refused as the interpreter refuses it. *)
Definition lex_number (limit : bool) (s : string) : option (result value * string) :=
  let '(neg, s1) :=
    match s with
    | String "-" r => (true, r)
    | _ => (false, s)
    end in
  match lex_int s1 with
  | None => None
  | Some (i, ni, s2) =>
      let '(f, nf, s3, has_frac) :=
        match lex_frac s2 with
        | Some (f, nf, r) => (f, nf, r, true)
        | None => (0%Z, 0%nat, s2, false)
        end in
      let '(e, s4, has_exp) :=
        match lex_exp s3 with
        | Some (e, r) => (e, r, true)
        | None => (0%Z, s3, false)
        end in
      if has_frac || has_exp then
        let m := (i * 10 ^ Z.of_nat nf + f)%Z in
        let bits := float_bits m (ni + nf) (e - Z.of_nat nf) in
        Some (Ok (VFloat (if neg then sign_bit + bits else bits)%Z), s4)
      else if limit && (4300 <? ni)%nat then Some (Raise ValueError, s4)
      else Some (Ok (VInt (if neg then - i else i)%Z), s4)
  end.

(** The generalized UTF-8 bytes of the code point [n]. *)
Definition utf8_encode (n : Z) : string :=
  let byte (z : Z) := ascii_of_nat (Z.to_nat z) in
  let cont (z : Z) := byte (128 + Z.land z 63)%Z in
  if (n <? 128)%Z then str1 (byte n)
  else if (n <? 2048)%Z then
    String (byte (192 + Z.shiftr n 6)%Z) (str1 (cont n))
  else if (n <? 65536)%Z then
    String (byte (224 + Z.shiftr n 12)%Z)
      (String (cont (Z.shiftr n 6)) (str1 (cont n)))
  else
    String (byte (240 + Z.shiftr n 18)%Z)
      (String (cont (Z.shiftr n 12))
         (String (cont (Z.shiftr n 6)) (str1 (cont n)))).

(** Four hexadecimal digits. *)
Definition lex_hex4 (s : string) : option (Z * string) :=
  match s with
  | String a (String b (String c (String d rest))) =>
      match hex_of a, hex_of b, hex_of c, hex_of d with
      | Some x, Some y, Some z, Some t => Some (4096 * x + 256 * y + 16 * z + t, rest)%Z
      | _, _, _, _ => None
      end
  | _ => None
  end.

(** The text after [\u]: one code point, or a pair of surrogates joined. *)
Definition lex_unicode (s : string) : option (Z * string) :=
  match lex_hex4 s with
  | None => None
  | Some (hi, rest) =>
      if (0xD800 <=? hi)%Z && (hi <=? 0xDBFF)%Z then
        match rest with
        | String "\" (String "u" rest') =>
            match lex_hex4 rest' with
            | Some (lo, rest'') =>
                if (0xDC00 <=? lo)%Z && (lo <=? 0xDFFF)%Z
                then Some (65536 + 1024 * (hi - 0xD800) + (lo - 0xDC00), rest'')%Z
                else Some (hi, rest)
            | None => Some (hi, rest)
            end
        | _ => Some (hi, rest)
        end
      else Some (hi, rest)
  end.

Definition unescape (c : ascii) : option ascii :=
  if Ascii.eqb c dquote then Some dquote
  else if Ascii.eqb c "\" then Some "\"%char
  else if Ascii.eqb c "/" then Some "/"%char
  else if Ascii.eqb c "b" then Some "008"%char
  else if Ascii.eqb c "f" then Some "012"%char
  else if Ascii.eqb c "n" then Some "010"%char
  else if Ascii.eqb c "r" then Some "013"%char
  else if Ascii.eqb c "t" then Some "009"%char
  else None.

(** The text after an opening quote, up to the closing one. *)
Fixpoint lex_string (fuel : nat) (s : string) : option (string * string) :=
  match fuel with
  | O => None
  | S fuel' =>
      match s with
      | EmptyString => None
      | String c rest =>
          if Ascii.eqb c dquote then Some (EmptyString, rest)
          else if Ascii.eqb c "\" then
            match rest with
            | String "u" rest' =>
                match lex_unicode rest' with
                | Some (n, r) =>
                    match lex_string fuel' r with
                    | Some (t, r') => Some (utf8_encode n ++ t, r')
                    | None => None
                    end
                | None => None
                end
            | String e rest' =>
                match unescape e, lex_string fuel' rest' with
                | Some u, Some (t, r) => Some (String u t, r)
                | _, _ => None
                end
            | EmptyString => None
            end
          else if (nat_of_ascii c <? 32)%nat then None
          else match lex_string fuel' rest with
               | Some (t, r) => Some (String c t, r)
               | None => None
               end
      end
  end.

Definition scan_string (s : string) : option (string * string) :=
  lex_string (S (String.length s)) s.

Section Parser.

(** As [json.loads] does, or by the JSON grammar alone: whether [NaN],
    [Infinity] and [-Infinity] are taken and long integers refused. *)
Variable python : bool.

Definition lex_constant (s : string) : option (value * string) :=
  match strip_prefix "null" s, strip_prefix "true" s, strip_prefix "false" s with
  | Some r, _, _ => Some (VNone, r)
  | _, Some r, _ => Some (VBool true, r)
  | _, _, Some r => Some (VBool false, r)
  | None, None, None =>
      if python then
        match strip_prefix "NaN" s, strip_prefix "Infinity" s,
              strip_prefix "-Infinity" s with
        | Some r, _, _ => Some (VFloat nan_bits, r)
        | _, Some r, _ => Some (VFloat inf_bits, r)
        | _, _, Some r => Some (VFloat (sign_bit + inf_bits), r)
        | None, None, None => None
        end
      else None
  end.

Fixpoint parse_value (fuel : nat) (s : string) : result (value * string) :=
  match fuel with
  | O => Raise JSONDecodeError
  | S fuel' =>
      match skip_ws s with
      | EmptyString => Raise JSONDecodeError
      | String c rest as t =>
          if Ascii.eqb c dquote then
            match scan_string rest with
            | Some (str, r) => Ok (VStr str, r)
            | None => Raise JSONDecodeError
            end
          else if Ascii.eqb c "[" then
            match skip_ws rest with
            | String "]" r => Ok (VList [], r)
            | _ =>
                match parse_elements fuel' rest with
                | Ok (vs, r) => Ok (VList vs, r)
                | Raise e => Raise e
                end
            end
          else if Ascii.eqb c "{" then
            match skip_ws rest with
            | String "}" r => Ok (VDict [], r)
            | _ =>
                match parse_members fuel' rest [] with
                | Ok (d, r) => Ok (VDict d, r)
                | Raise e => Raise e
                end
            end
          else
            match lex_constant t with
            | Some (v, r) => Ok (v, r)
            | None =>
                match lex_number python t with
                | Some (Ok v, r) => Ok (v, r)
                | Some (Raise e, _) => Raise e
                | None => Raise JSONDecodeError
                end
            end
      end
  end
with parse_elements (fuel : nat) (s : string) : result (list value * string) :=
  match fuel with
  | O => Raise JSONDecodeError
  | S fuel' =>
      match parse_value fuel' s with
      | Ok (v, r) =>
          match skip_ws r with
          | String "," r' =>
              match parse_elements fuel' r' with
              | Ok (vs, r'') => Ok (v :: vs, r'')
              | Raise e => Raise e
              end
          | String "]" r' => Ok ([v], r')
          | _ => Raise JSONDecodeError
          end
      | Raise e => Raise e
      end
  end
with parse_members (fuel : nat) (s : string) (acc : list (string * value))
  : result (list (string * value) * string) :=
  match fuel with
  | O => Raise JSONDecodeError
  | S fuel' =>
      match skip_ws s with
      | String c rest =>
          if Ascii.eqb c dquote then
            match scan_string rest with
            | Some (k, r) =>
                match skip_ws r with
                | String ":" r1 =>
                    match parse_value fuel' r1 with
                    | Ok (v, r2) =>
                        let acc' := dict_set k v acc in
                        match skip_ws r2 with
                        | String "," r3 => parse_members fuel' r3 acc'
                        | String "}" r3 => Ok (acc', r3)
                        | _ => Raise JSONDecodeError
                        end
                    | Raise e => Raise e
                    end
                | _ => Raise JSONDecodeError
                end
            | None => Raise JSONDecodeError
            end
          else Raise JSONDecodeError
      | EmptyString => Raise JSONDecodeError
      end
  end.

Definition decode (s : string) : result value :=
  match parse_value (2 * String.length s + 2) s with
  | Ok (v, r) =>
      match skip_ws r with
      | EmptyString => Ok v
      | String _ _ => Raise JSONDecodeError
      end
  | Raise e => Raise e
  end.

End Parser.

(** [json.loads] *)
Definition loads (s : string) : result value := decode true s.

(** A text of the JSON grammar (RFC 8259). *)
Definition is_json (s : string) : bool :=
  match decode false s with
  | Ok _ => true
  | Raise _ => false
  end.

(** Writes a JSON text with apostrophes for the double quotes. *)
Fixpoint text (s : string) : string :=
  match s with
  | EmptyString => EmptyString
  | String c rest => String (if Ascii.eqb c "'" then dquote else c) (text rest)
  end.

End Json.

(** ** The script's monad *)

(** A piece of a printed line: literal text; a hole that holds text of the
    script's own, an identifier, a path or the query; or the text [str()]
    gives for a decoded value or for an exception in a hole. *)
Inductive piece : Type :=
| Lit (s : string)
| Txt (s : string)
| Fmt (v : value)
| FmtExn (e : exn).

(** What [str()] gives for [v] can be encoded: a [str] is its own text and
    must hold no lone surrogate; the text of any other value shows the
    strings inside it by [repr], which escapes a surrogate. *)
Definition printable_value (v : value) : bool :=
  match v with
  | VStr s => negb (has_surrogate s)
  | _ => true
  end.

(** The text of an exception is the captured standard error, or a message
    of the interpreter that shows data by [repr]. *)
Definition encodable (p : piece) : bool :=
  match p with
  | Fmt v => printable_value v
  | Lit _ | Txt _ | FmtExn _ => true
  end.

Definition line : Type := list piece.

(** What the script has done so far: the argument lists of the child
    processes it started and the lines it printed, oldest first. *)
Record world : Type := mkWorld {
  spawned : list (list string);
  printed : list line
}.

Definition M (A : Type) : Type := world -> result A * world.

Definition ret {A} (a : A) : M A := fun w => (Ok a, w).

Definition bind {A B} (m : M A) (k : A -> M B) : M B :=
  fun w =>
    match m w with
    | (Ok a, w') => k a w'
    | (Raise e, w') => (Raise e, w')
    end.

Definition raise {A} (e : exn) : M A := fun w => (Raise e, w).

(** A pure operation that may raise. *)
Definition lift {A} (r : result A) : M A := fun w => (r, w).

(** [try: m  except Exception as e: handler e] *)
Definition try_except {A} (m : M A) (handler : exn -> M A) : M A :=
  fun w =>
    match m w with
    | (Ok a, w') => (Ok a, w')
    | (Raise e, w') => handler e w'
    end.

(** [print(f"...")]: the whole line is encoded before any of it is
    written. *)
Definition print (l : line) : M unit :=
  fun w =>
    if forallb encodable l
    then (Ok tt, {| spawned := spawned w; printed := printed w ++ [l] |})
    else (Raise UnicodeEncodeError, w).

Declare Scope py_scope.
Delimit Scope py_scope with py.
Notation "x <- m ;; k" := (bind m (fun x => k))
  (at level 61, m at next level, right associativity) : py_scope.
Notation "m ;; k" := (bind m (fun _ => k))
  (at level 61, right associativity) : py_scope.
Local Open Scope py_scope.

(** A [for] loop whose body may raise. *)
Fixpoint for_each {A} (l : list A) (body : A -> M unit) : M unit :=
  match l with
  | [] => ret tt
  | x :: rest => body x ;; for_each rest body
  end.

(** A list comprehension [[x for x in l if cond x]]. *)
Fixpoint comprehension (cond : value -> result bool) (l : list value)
  : result (list value) :=
  match l with
  | [] => Ok []
  | x :: rest =>
      match cond x with
      | Raise e => Raise e
      | Ok b =>
          match comprehension cond rest with
          | Raise e => Raise e
          | Ok ys => Ok (if b then x :: ys else ys)
          end
      end
  end.

(** The marks the script prints: U+2713, U+2717 and U+2705 in UTF-8. *)
Definition check_mark : string :=
  String "226" (String "156" (String "147" EmptyString)).
Definition cross_mark : string :=
  String "226" (String "156" (String "151" EmptyString)).
Definition done_mark : string :=
  String "226" (String "156" (String "133" EmptyString)).
Definition newline : string := str1 "010".

Definition CLI_PATH : string := "zmcp".

(** The external tool: given the argument lists of the processes started
    before and the argument list of this one, either [subprocess.run]
    raises, or the process completes. *)
Definition tool_t : Type := list (list string) -> list string -> result CompletedProcess.

Section Script.

Variable tool : tool_t.
Variable json_loads : string -> result value.
Variable py_str : value -> string.

(** [subprocess.run(cmd, capture_output=True, text=True)] *)
Definition subprocess_run (cmd : list string) : M CompletedProcess :=
  fun w =>
    (tool (spawned w) cmd,
     {| spawned := spawned w ++ [cmd]; printed := printed w |}).

(** The [json_output=True] keyword of [run_zmcp]: [None] when the call
    does not give it. *)
Definition json_requested (json_output : option bool) : bool :=
  match json_output with
  | Some b => b
  | None => true
  end.

(** The argument list built in lines 17 to 19. *)
Definition build_cmd (command : string) (args : list string) (json_output : bool)
  : list string :=
  let cmd := ([CLI_PATH; command] ++ args)%list in
  if json_output then (cmd ++ ["--json"])%list else cmd.

Definition run_zmcp (command : string) (args : list string)
  (json_output : option bool) : M value :=
  let json_output := json_requested json_output in
  let cmd := build_cmd command args json_output in
  result <- subprocess_run cmd ;;
  if negb (Z.eqb (returncode result) 0) then
    raise (Exception ("Command failed: " ++ stderr result))
  else if json_output then
    lift (json_loads (stdout result))
  else
    ret (VStr (stdout result)).

(** [str(v)] as an f-string hole gives it: a [str] is its own text. *)
Definition py_format (v : value) : string :=
  match v with
  | VStr s => s
  | _ => py_str v
  end.

Definition rule : string := str_mul "=" 60.

(** *** Example 1: fetch a structure (lines 31 to 44) *)

(** The six lines printed from the decoded result, lines 39 to 44. *)
Definition show_fetched (data : value) (output_file : string) : M unit :=
  v <- lift (getitem data "pdbId") ;;
  print [Lit (check_mark ++ " Fetched "); Fmt v] ;;
  v <- lift (getitem data "title") ;;
  print [Lit "  Title: "; Fmt v] ;;
  v <- lift (getitem data "authors") ;;
  print [Lit "  Authors: "; Fmt v] ;;
  v <- lift (getitem data "method") ;;
  print [Lit "  Method: "; Fmt v] ;;
  v <- lift (getitem data "doi") ;;
  print [Lit "  DOI: "; Fmt v] ;;
  v <- lift (getitem data "fileSize") ;;
  print [Lit "  File: "; Txt output_file; Lit " ("; Fmt v; Lit " bytes)"].

Definition example1 : M unit :=
  print [Lit "Example 1: Fetch PDB structure"] ;;
  print [Lit rule] ;;
  let pdb_id := "4HHB" in
  let output_file := "hemoglobin.pdb" in
  data <- run_zmcp "fetch-pdb" [pdb_id; "--output"; output_file] None ;;
  show_fetched data output_file.

(** *** Example 2: save to Zotero (lines 52 to 62) *)

(** The five lines printed from the decoded result, lines 58 to 62. *)
Definition show_saved (data : value) : M unit :=
  v <- lift (getitem data "itemKey") ;;
  print [Lit (check_mark ++ " Saved to Zotero: "); Fmt v] ;;
  v <- lift (getitem data "title") ;;
  print [Lit "  Title: "; Fmt v] ;;
  v <- lift (getitem data "collection") ;;
  print [Lit "  Collection: "; Fmt v] ;;
  v <- lift (getitem data "hasFile") ;;
  print [Lit "  Has PDB file: "; Fmt v] ;;
  v <- lift (getitem data "url") ;;
  print [Lit "  URL: "; Fmt v].

Definition example2 : M unit :=
  print [Lit (newline ++ "Example 2: Save PDB to Zotero")] ;;
  print [Lit rule] ;;
  let pdb_id := "1MBN" in
  data <- run_zmcp "save-pdb" [pdb_id; "--collection"; "Python Structures"] None ;;
  show_saved data.

(** *** Example 3: search (lines 65 to 73) *)

(** The body of the loop, line 73. *)
Definition summarize (entry : Z * value) : M unit :=
  let '(i, item) := entry in
  title <- lift (getitem item "title") ;;
  key <- lift (getitem item "key") ;;
  print [Lit "  "; Fmt (VInt i); Lit ". "; Fmt title; Lit " ("; Fmt key; Lit ")"].

(** Lines 71 to 73. *)
Definition search_summary (query : string) (items : value) : M unit :=
  n <- lift (py_len items) ;;
  print [Lit "Found "; Fmt (VInt n); Lit " citations matching '"; Txt query;
         Lit "':"] ;;
  first5 <- lift (py_slice_to 5 items) ;;
  elems <- lift (py_iter first5) ;;
  for_each (enumerate 1 elems) summarize.

Definition example3 : M value :=
  print [Lit (newline ++ "Example 3: Search Zotero")] ;;
  print [Lit rule] ;;
  let query := "hemoglobin" in
  items <- run_zmcp "search" [query] None ;;
  search_summary query items ;;
  ret items.

(** *** Example 4: citation details (lines 76 to 98) *)

Definition is_attachment (c : value) : result bool :=
  match getitem c "itemType" with
  | Ok t => Ok (value_eq_str t "attachment")
  | Raise e => Raise e
  end.

Definition is_pdb (a : value) : result bool :=
  match py_get a "contentType" (VStr EmptyString) with
  | Ok ct => py_in "pdb" ct
  | Raise e => Raise e
  end.

(** Line 88, from the value of [details['children']]. *)
Definition attachments_of (children : value) : result (list value) :=
  match py_iter children with
  | Ok cs => comprehension is_attachment cs
  | Raise e => Raise e
  end.

(** Line 92. *)
Definition pdb_attachments_of (attachments : list value) : result (list value) :=
  comprehension is_pdb attachments.

(** Lines 93 to 98. *)
Definition download_first (pdb_attachments : list value) : M unit :=
  match pdb_attachments with
  | [] => ret tt
  | first :: _ =>
      att_key <- lift (getitem first "key") ;;
      filename <- lift (getitem first "filename") ;;
      let output_path := py_format filename in
      att_key <- lift (as_arg att_key) ;;
      download_result <- run_zmcp "download" [att_key; output_path] None ;;
      size <- lift (getitem download_result "size") ;;
      print [Lit ("  " ++ check_mark ++ " Downloaded "); Fmt (VStr output_path);
             Lit " ("; Fmt size; Lit " bytes)"]
  end.

(** Lines 83 to 98, from the decoded result of [get]. *)
Definition show_details (details : value) : M unit :=
  item <- lift (getitem details "item") ;;
  v <- lift (getitem item "title") ;;
  print [Lit "Citation: "; Fmt v] ;;
  item <- lift (getitem details "item") ;;
  v <- lift (getitem item "itemType") ;;
  print [Lit "Type: "; Fmt v] ;;
  item <- lift (getitem details "item") ;;
  v <- lift (py_get item "DOI" (VStr "N/A")) ;;
  print [Lit "DOI: "; Fmt v] ;;
  children <- lift (getitem details "children") ;;
  attachments <- lift (attachments_of children) ;;
  print [Lit "Attachments: "; Fmt (VInt (Z.of_nat (List.length attachments)))] ;;
  pdb_attachments <- lift (pdb_attachments_of attachments) ;;
  download_first pdb_attachments.

Definition example4 (items : value) : M unit :=
  print [Lit (newline ++ "Example 4: Get citation details")] ;;
  print [Lit rule] ;;
  if py_truthy items then
    first <- lift (getitem0 items) ;;
    item_key <- lift (getitem first "key") ;;
    item_key <- lift (as_arg item_key) ;;
    details <- run_zmcp "get" [item_key] None ;;
    show_details details
  else ret tt.

(** *** Example 5: batch (lines 101 to 124) *)

(** The body of the [try], lines 109 to 118. *)
Definition fetch_one (pdb_id : string) (structures : list value) : M (list value) :=
  let output_file := pdb_id ++ ".pdb" in
  data <- run_zmcp "fetch-pdb" [pdb_id; "--output"; output_file] None ;;
  id <- lift (getitem data "pdbId") ;;
  title <- lift (getitem data "title") ;;
  short <- lift (py_slice_to 50 title) ;;
  print [Lit (check_mark ++ " "); Fmt id; Lit ": "; Fmt short; Lit "..."] ;;
  ret (structures ++
       [VDict [("id", VStr pdb_id); ("file", VStr output_file); ("metadata", data)]])%list.

(** The loop of lines 107 to 121; [structures] is the list built so far. *)
Fixpoint batch_loop (pdb_ids : list string) (structures : list value)
  : M (list value) :=
  match pdb_ids with
  | [] => ret structures
  | pdb_id :: rest =>
      structures <- try_except (fetch_one pdb_id structures)
                      (fun e =>
                         print [Lit (cross_mark ++ " Failed to fetch "); Txt pdb_id;
                                Lit ": "; FmtExn e] ;;
                         ret structures) ;;
      batch_loop rest structures
  end.

Definition example5 : M (list value) :=
  print [Lit (newline ++ "Example 5: Batch process PDB structures")] ;;
  print [Lit rule] ;;
  let pdb_ids := ["4HHB"; "1MBN"; "2HHB"; "1UBQ"] in
  structures <- batch_loop pdb_ids [] ;;
  print [Lit (newline ++ check_mark ++ " Fetched ");
         Fmt (VInt (Z.of_nat (List.length structures))); Lit " structures"] ;;
  print [Lit "Ready for analysis with BioPython, PyMOL, etc."] ;;
  ret structures.

(** *** Example 6: the Colab workflow (lines 127 to 150) *)

(** [pdb_id] is the caller's text, not the script's own: its hole is
    printed like a decoded text. *)
Definition colab_pdb_workflow (pdb_id : string) (save_to_zotero : option bool)
  : M string :=
  let save_to_zotero :=
    match save_to_zotero with Some b => b | None => true end in
  let output_file := "/content/" ++ pdb_id ++ ".pdb" in
  data <- run_zmcp "fetch-pdb" [pdb_id; "--output"; output_file] None ;;
  (if save_to_zotero then
     zotero_result <-
       run_zmcp "save-pdb" [pdb_id; "--collection"; "Colab Structures"] None ;;
     v <- lift (getitem zotero_result "itemKey") ;;
     print [Lit (check_mark ++ " "); Fmt (VStr pdb_id);
            Lit ": Fetched and saved to Zotero ("; Fmt v; Lit ")"]
   else
     v <- lift (getitem data "fileSize") ;;
     print [Lit (check_mark ++ " "); Fmt (VStr pdb_id); Lit ": Fetched (";
            Fmt v; Lit " bytes)"]) ;;
  ret output_file.

(** The whole script, top to bottom. *)
Definition script : M unit :=
  example1 ;;
  example2 ;;
  items <- example3 ;;
  example4 items ;;
  example5 ;;
  print [Lit (newline ++ "Example 6: Colab workflow")] ;;
  print [Lit rule] ;;
  print [Lit (newline ++ done_mark ++ " All CLI examples complete!")] ;;
  print [Lit (newline ++ "The CLI can be used while Claude Desktop MCP server is running.")] ;;
  print [Lit "They both access the same Zotero library safely."].

End Script.

Arguments print l w /.
Arguments subprocess_run tool cmd w /.

(** ** Specification-side definitions *)

(** The argument list of the fetch of [pdb_id] in the batch. *)
Definition fetch_cmd (pdb_id : string) : list string :=
  ["zmcp"; "fetch-pdb"; pdb_id; "--output"; pdb_id ++ ".pdb"; "--json"].

(** The record the batch keeps for [pdb_id]. *)
Definition structure_record (pdb_id : string) (data : value) : value :=
  VDict [("id", VStr pdb_id); ("file", VStr (pdb_id ++ ".pdb")); ("metadata", data)].

(** The line of the batch for an identifier that failed with [e]. *)
Definition failed_line (pdb_id : string) (e : exn) : line :=
  [Lit (cross_mark ++ " Failed to fetch "); Txt pdb_id; Lit ": "; FmtExn e].

(** The header of the search summary: the count and the query. *)
Definition found_line (n : Z) (query : string) : line :=
  [Lit "Found "; Fmt (VInt n); Lit " citations matching '"; Txt query; Lit "':"].

(** The line that summarizes the item at position [i]. *)
Definition summary_line (i : Z) (title key : value) : line :=
  [Lit "  "; Fmt (VInt i); Lit ". "; Fmt title; Lit " ("; Fmt key; Lit ")"].

(** A mapping whose field [k] holds a value that can be printed. *)
Definition printable_field (k : string) (v : value) : bool :=
  match v with
  | VDict d =>
      match dict_lookup k d with
      | Some x => printable_value x
      | None => false
      end
  | _ => false
  end.

(** The bare argument list of a call, before the optional flag. *)
Definition base_cmd (command : string) (args : list string) : list string :=
  CLI_PATH :: command :: args.

(** The flag that requests JSON, present or not. *)
Definition json_flag (requested : bool) : list string :=
  if requested then ["--json"] else [].

(** The world after one more process was started. *)
Definition after_spawn (w : world) (cmd : list string) : world :=
  {| spawned := spawned w ++ [cmd]; printed := printed w |}.

(** The world after more lines were printed. *)
Definition after_print (w : world) (ls : list line) : world :=
  {| spawned := spawned w; printed := printed w ++ ls |}.

(** A mapping that has the field [k]. *)
Definition has_field (k : string) (v : value) : bool :=
  match v with
  | VDict d => match dict_lookup k d with Some _ => true | None => false end
  | _ => false
  end.

(** A mapping whose field [k] is absent or holds text. *)
Definition text_or_absent (k : string) (v : value) : bool :=
  match v with
  | VDict d =>
      match dict_lookup k d with
      | None | Some (VStr _) => true
      | Some _ => false
      end
  | _ => false
  end.

(** A child whose item type is the text [ty]. *)
Definition item_type_is (ty : string) (c : value) : bool :=
  match c with
  | VDict d =>
      match dict_lookup "itemType" d with
      | Some (VStr t) => String.eqb t ty
      | _ => false
      end
  | _ => false
  end.

(** A child whose content type is a text that contains [needle]. *)
Definition content_type_has (needle : string) (a : value) : bool :=
  match a with
  | VDict d =>
      match dict_lookup "contentType" d with
      | Some (VStr s) => str_contains needle s
      | _ => false
      end
  | _ => false
  end.

(** The fields Example 1 prints. *)
Definition fetched_fields : list string :=
  ["pdbId"; "title"; "authors"; "method"; "doi"; "fileSize"].

(** The line [ln] summarizes [entry] by its position, title and key. *)
Definition summarizes (entry : Z * value) (ln : line) : Prop :=
  exists title key,
    getitem (snd entry) "title" = Ok title
    /\ getitem (snd entry) "key" = Ok key
    /\ ln = summary_line (fst entry) title key.

(** The record of [pdb_id] in the batch result. *)
Definition is_record_of (pdb_id : string) (record : value) : Prop :=
  exists data, record = structure_record pdb_id data.

(** A decoded result that line 112 can print: it has a [pdbId] that can
    be printed, and a [title] that can be sliced, the slice being one
    that can be printed. *)
Definition printable (data : value) : bool :=
  match getitem data "pdbId", getitem data "title" with
  | Ok id, Ok title =>
      match py_slice_to 50 title with
      | Ok short => printable_value id && printable_value short
      | Raise _ => false
      end
  | _, _ => false
  end.

Section BatchSpec.

Variable tool : tool_t.
Variable json_loads : string -> result value.

(** The invocation for [pdb_id], started after the processes [hist],
    exits with a non-zero status. *)
Definition exits_nonzero (hist : list (list string)) (pdb_id : string) : bool :=
  match tool hist (fetch_cmd pdb_id) with
  | Ok cp => negb (Z.eqb (returncode cp) 0)
  | Raise _ => false
  end.

(** The invocation for [pdb_id], started after the processes [hist],
    exits with status zero and its output decodes to [data]. *)
Definition invocation_succeeds (hist : list (list string)) (pdb_id : string)
  : option value :=
  match tool hist (fetch_cmd pdb_id) with
  | Ok cp =>
      if Z.eqb (returncode cp) 0 then
        match json_loads (stdout cp) with
        | Ok data => Some data
        | Raise _ => None
        end
      else None
  | Raise _ => None
  end.

(** What the iteration for [pdb_id] adds to the result. *)
Definition fetched (hist : list (list string)) (pdb_id : string) : option value :=
  match invocation_succeeds hist pdb_id with
  | Some data => if printable data then Some data else None
  | None => None
  end.

(** The records a batch over [pdb_ids] collects, started after [hist]. *)
Fixpoint collected (pdb_ids : list string) (hist : list (list string))
  : list value :=
  match pdb_ids with
  | [] => []
  | pdb_id :: rest =>
      (match fetched hist pdb_id with
       | Some data => [structure_record pdb_id data]
       | None => []
       end ++ collected rest (hist ++ [fetch_cmd pdb_id]))%list
  end.

End BatchSpec.

(** The processes started before iteration [i] of a batch over [pdb_ids]. *)
Definition hist_at (w : world) (pdb_ids : list string) (i : nat)
  : list (list string) :=
  (spawned w ++ map fetch_cmd (firstn i pdb_ids))%list.

(** *** Definitions for the remaining call sites *)

(** [l1] is [l2] with some elements left out, the order kept. *)
Inductive subseq {A : Type} : list A -> list A -> Prop :=
| subseq_nil : subseq [] []
| subseq_keep (x : A) (l1 l2 : list A) : subseq l1 l2 -> subseq (x :: l1) (x :: l2)
| subseq_drop (x : A) (l1 l2 : list A) : subseq l1 l2 -> subseq l1 (x :: l2).

(** The condition of a comprehension holds of [x]: it gives [True]. *)
Definition holds (cond : value -> result bool) (x : value) : bool :=
  match cond x with
  | Ok true => true
  | _ => false
  end.

(** The line Example 1 prints for the field [k] with value [v]. *)
Definition fetched_line (output_file k : string) (v : value) : line :=
  if String.eqb k "pdbId" then [Lit (check_mark ++ " Fetched "); Fmt v]
  else if String.eqb k "title" then [Lit "  Title: "; Fmt v]
  else if String.eqb k "authors" then [Lit "  Authors: "; Fmt v]
  else if String.eqb k "method" then [Lit "  Method: "; Fmt v]
  else if String.eqb k "doi" then [Lit "  DOI: "; Fmt v]
  else [Lit "  File: "; Txt output_file; Lit " ("; Fmt v; Lit " bytes)"].

(** The fields Example 2 prints. *)
Definition saved_fields : list string :=
  ["itemKey"; "title"; "collection"; "hasFile"; "url"].

(** The line Example 2 prints for the field [k] with value [v]. *)
Definition saved_line (k : string) (v : value) : line :=
  if String.eqb k "itemKey" then [Lit (check_mark ++ " Saved to Zotero: "); Fmt v]
  else if String.eqb k "title" then [Lit "  Title: "; Fmt v]
  else if String.eqb k "collection" then [Lit "  Collection: "; Fmt v]
  else if String.eqb k "hasFile" then [Lit "  Has PDB file: "; Fmt v]
  else [Lit "  URL: "; Fmt v].

(** Reading the fields [ks] of [d] in order and printing the line of each:
    the lines printed, and how the reading ends: with [KeyError] at the
    first field that is missing, with [UnicodeEncodeError] at the first
    value that cannot be printed, or after the last field. *)
Fixpoint field_trace (line_of : string -> value -> line)
  (d : list (string * value)) (ks : list string) : result unit * list line :=
  match ks with
  | [] => (Ok tt, [])
  | k :: rest =>
      match dict_lookup k d with
      | None => (Raise (KeyError (VStr k)), [])
      | Some v =>
          if printable_value v then
            let '(r, ls) := field_trace line_of d rest in
            (r, line_of k v :: ls)
          else (Raise UnicodeEncodeError, [])
      end
  end.

(** Every field of [ks] that [d] has holds a value that can be printed. *)
Definition fields_printable (d : list (string * value)) (ks : list string) : bool :=
  forallb (fun k => match dict_lookup k d with
                    | Some v => printable_value v
                    | None => true
                    end) ks.

(** The first field of [ks] that [d] lacks. *)
Fixpoint first_missing (d : list (string * value)) (ks : list string)
  : option string :=
  match ks with
  | [] => None
  | k :: rest =>
      match dict_lookup k d with
      | None => Some k
      | Some _ => first_missing d rest
      end
  end.

(** Whatever the start, [m] only adds to the world, and starts at most
    [n] processes. *)
Definition starts_at_most {A : Type} (n : nat) (m : M A) : Prop :=
  forall w, exists sp pr,
    snd (m w) = {| spawned := spawned w ++ sp; printed := printed w ++ pr |}
    /\ (List.length sp <= n)%nat.

(** The argument lists of the two calls of [colab_pdb_workflow]. *)
Definition colab_fetch_cmd (pdb_id : string) : list string :=
  ["zmcp"; "fetch-pdb"; pdb_id; "--output"; "/content/" ++ pdb_id ++ ".pdb"; "--json"].

Definition colab_save_cmd (pdb_id : string) : list string :=
  ["zmcp"; "save-pdb"; pdb_id; "--collection"; "Colab Structures"; "--json"].

(** The line [colab_pdb_workflow] prints after saving. *)
Definition colab_saved_line (pdb_id : string) (item_key : value) : line :=
  [Lit (check_mark ++ " "); Fmt (VStr pdb_id);
   Lit ": Fetched and saved to Zotero ("; Fmt item_key; Lit ")"].

Definition colab_fetched_line (pdb_id : string) (size : value) : line :=
  [Lit (check_mark ++ " "); Fmt (VStr pdb_id); Lit ": Fetched ("; Fmt size;
   Lit " bytes)"].

(** The argument list of the [download] call. *)
Definition download_cmd (att_key output_path : string) : list string :=
  ["zmcp"; "download"; att_key; output_path; "--json"].

(** The process with argument list [cmd], started after [hist], completes
    with a non-zero status. *)
Definition exits_with_error (tool : tool_t) (hist : list (list string))
  (cmd : list string) : bool :=
  match tool hist cmd with
  | Ok cp => negb (Z.eqb (returncode cp) 0)
  | Raise _ => false
  end.

(** ** Stand-ins for the external tool *)
Module Mock.

(** A tool that completes the same way whatever it is asked. *)
Definition always (cp : CompletedProcess) : tool_t := fun _ _ => Ok cp.

Definition hemoglobin_doc : string :=
  Json.text "[{'title':'Hemoglobin structure','key':'ABC123'}]".

Definition search_tool : tool_t :=
  always {| returncode := 0; stdout := hemoglobin_doc; stderr := EmptyString |}.

Definition failing_tool : tool_t :=
  always {| returncode := 1; stdout := EmptyString;
            stderr := "Error: PDB entry 9XXX not found" ++ newline |}.

Definition text_tool : tool_t :=
  always {| returncode := 0; stdout := "Found 3 items" ++ newline ++ "  ";
            stderr := EmptyString |}.

Definition garbled_tool : tool_t :=
  always {| returncode := 0; stdout := "Found 3 items"; stderr := EmptyString |}.

Definition w0 : world := {| spawned := []; printed := [] |}.

Definition no_str : value -> string := fun _ => "?".

(** A text of one code point, the lone surrogate U+D800, as the decoder
    gives it for [\ud800]. *)
Definition surrogate : string :=
  String "237" (String "160" (String "128" EmptyString)).

(** The fetch tool: status 1 for the identifier [bad], and for any other
    identifier status 0 with the document [doc] gives for it. *)
Definition batch_tool (bad : string) (doc : string -> string) : tool_t :=
  fun _ cmd =>
    match cmd with
    | [_; _; pdb_id; _; _; _] =>
        if String.eqb pdb_id bad
        then Ok {| returncode := 1; stdout := EmptyString;
                   stderr := "Error: " ++ pdb_id ++ " not found" |}
        else Ok {| returncode := 0; stdout := doc pdb_id; stderr := EmptyString |}
    | _ => Raise OSError
    end.

Definition full_doc (pdb_id : string) : string :=
  Json.text ("{'pdbId':'" ++ pdb_id ++ "','title':'Structure " ++ pdb_id ++ "'}").

Definition empty_doc (pdb_id : string) : string := "{}".

Definition pdb_ids : list string := ["4HHB"; "1MBN"; "2HHB"; "1UBQ"].

Definition attachment (content_type : string) : value :=
  VDict [("key", VStr "ATT1"); ("itemType", VStr "attachment");
         ("contentType", VStr content_type)].

Definition note : value := VDict [("key", VStr "NOTE1"); ("itemType", VStr "note")].

Definition citation (n : string) : value :=
  VDict [("title", VStr ("Title " ++ n)); ("key", VStr ("KEY" ++ n))].

Definition six_items : list value :=
  map citation ["1"; "2"; "3"; "4"; "5"; "6"].

(** [subprocess.run] cannot start the tool. *)
Definition missing_tool : tool_t := fun _ _ => Raise OSError.

Definition fetch_doc (pdb_id : string) : string :=
  Json.text ("{'pdbId':'" ++ pdb_id ++ "','title':'Structure " ++ pdb_id ++
             "','authors':'Fermi, G.','method':'X-RAY DIFFRACTION'," ++
             "'doi':'10.2210/pdb" ++ pdb_id ++ "/pdb','fileSize':473000}").

Definition saved_doc : string :=
  Json.text ("{'itemKey':'ITEM1','title':'Myoglobin','collection':'Python Structures'," ++
             "'hasFile':true,'url':'https://www.rcsb.org/structure/1MBN'}").

Definition details_doc : string :=
  Json.text ("{'item':{'title':'Hemoglobin structure','itemType':'journalArticle'}," ++
             "'children':[{'key':'NOTE1','itemType':'note'}," ++
             "{'key':'ATT1','itemType':'attachment','contentType':'application/pdf'," ++
             "'filename':'paper.pdf'}," ++
             "{'key':'ATT2','itemType':'attachment','contentType':'chemical/x-pdb'," ++
             "'filename':'4hhb.pdb'}," ++
             "{'key':'ATT3','itemType':'attachment','contentType':'chemical/x-pdb'," ++
             "'filename':'other.pdb'}]}").

Definition done (out : string) : result CompletedProcess :=
  Ok {| returncode := 0; stdout := out; stderr := EmptyString |}.

(** A tool that answers each command of the script. *)
Definition zmcp_tool : tool_t :=
  fun _ cmd =>
    match cmd with
    | _ :: command :: arg :: _ =>
        if String.eqb command "fetch-pdb" then done (fetch_doc arg)
        else if String.eqb command "save-pdb" then done saved_doc
        else if String.eqb command "search" then done hemoglobin_doc
        else if String.eqb command "get" then done details_doc
        else if String.eqb command "download" then done (Json.text "{'size':1234}")
        else Ok {| returncode := 2; stdout := EmptyString;
                   stderr := "unknown command " ++ command |}
    | _ => Ok {| returncode := 2; stdout := EmptyString; stderr := "usage" |}
    end.

End Mock.

(** ** Facts about strings *)

Lemma prefix_refl (s : string) : String.prefix s s = true.
Proof.
  induction s as [|c s IH]; simpl; [reflexivity|].
  destruct (ascii_dec c c) as [_|Hc]; [exact IH | contradiction].
Qed.

Lemma str_contains_refl (s : string) : str_contains s s = true.
Proof.
  destruct s; cbn [str_contains]; rewrite prefix_refl; reflexivity.
Qed.

Lemma str_contains_append (p s : string) : str_contains s (p ++ s) = true.
Proof.
  induction p as [|c p IH].
  - apply str_contains_refl.
  - change (String c p ++ s) with (String c (p ++ s)).
    cbn [str_contains]. rewrite IH. apply orb_true_r.
Qed.

(** ** Stepping through the script *)

Lemma after_print_app (w : world) (l1 l2 : list line) :
  after_print (after_print w l1) l2 = after_print w (l1 ++ l2).
Proof. unfold after_print. simpl. rewrite app_assoc. reflexivity. Qed.

Lemma after_print_nil (w : world) : after_print w [] = w.
Proof. unfold after_print. rewrite app_nil_r. destruct w; reflexivity. Qed.

Lemma print_ok (l : line) (w : world) :
  forallb encodable l = true -> print l w = (Ok tt, after_print w [l]).
Proof. intros H. unfold print. rewrite H. reflexivity. Qed.

Lemma print_fail (l : line) (w : world) :
  forallb encodable l = false -> print l w = (Raise UnicodeEncodeError, w).
Proof. intros H. unfold print. rewrite H. reflexivity. Qed.

Lemma bind_print {B : Type} (l : line) (k : unit -> M B) (w : world) :
  forallb encodable l = true -> bind (print l) k w = k tt (after_print w [l]).
Proof. intros H. unfold bind. rewrite (print_ok l w H). reflexivity. Qed.

Lemma bind_print_fail {B : Type} (l : line) (k : unit -> M B) (w : world) :
  forallb encodable l = false ->
  bind (print l) k w = (Raise UnicodeEncodeError, w).
Proof. intros H. unfold bind. rewrite (print_fail l w H). reflexivity. Qed.

Lemma bind_ok {A B : Type} (m : M A) (k : A -> M B) (a : A) (w w' : world) :
  m w = (Ok a, w') -> bind m k w = k a w'.
Proof. intros H. unfold bind. rewrite H. reflexivity. Qed.

Lemma bind_raise {A B : Type} (m : M A) (k : A -> M B) (e : exn) (w w' : world) :
  m w = (Raise e, w') -> bind m k w = (Raise e, w').
Proof. intros H. unfold bind. rewrite H. reflexivity. Qed.

Lemma bind_lift {A B : Type} (a : A) (k : A -> M B) (w : world) :
  bind (lift (Ok a)) k w = k a w.
Proof. reflexivity. Qed.

Lemma bind_lift_ok {A B : Type} (r : result A) (k : A -> M B) (a : A) (w : world) :
  r = Ok a -> bind (lift r) k w = k a w.
Proof. intros ->. reflexivity. Qed.

Lemma bind_lift_raise {A B : Type} (r : result A) (k : A -> M B) (e : exn)
  (w : world) :
  r = Raise e -> bind (lift r) k w = (Raise e, w).
Proof. intros ->. reflexivity. Qed.

Lemma result_and_world {A : Type} (m : M A) (w : world) (r : result A) :
  fst (m w) = r -> m w = (r, snd (m w)).
Proof. intros <-. apply surjective_pairing. Qed.

(** A line all of whose holes hold values known to be printable. *)
Ltac line_ok :=
  cbn [forallb encodable];
  repeat match goal with
         | H : printable_value _ = true |- _ => rewrite H
         end;
  reflexivity.

(** ** The wrapper [run_zmcp] *)

Section RunFacts.

Variable tool : tool_t.
Variable json_loads : string -> result value.

Lemma build_cmd_shape (command : string) (args : list string) (j : bool) :
  build_cmd command args j = (base_cmd command args ++ json_flag j)%list.
Proof.
  unfold build_cmd, base_cmd, json_flag. destruct j; simpl.
  - reflexivity.
  - rewrite app_nil_r. reflexivity.
Qed.

(** One call starts exactly one process and prints nothing; what it
    returns is decided by how that process completes. *)
Lemma run_zmcp_eq (command : string) (args : list string)
  (json_output : option bool) (w : world) :
  run_zmcp tool json_loads command args json_output w =
  (match tool (spawned w) (build_cmd command args (json_requested json_output)) with
   | Ok cp =>
       if negb (Z.eqb (returncode cp) 0)
       then Raise (Exception ("Command failed: " ++ stderr cp))
       else if json_requested json_output then json_loads (stdout cp)
       else Ok (VStr (stdout cp))
   | Raise e => Raise e
   end,
   after_spawn w (build_cmd command args (json_requested json_output))).
Proof.
  unfold run_zmcp, bind, after_spawn. simpl.
  destruct (tool _ _) as [cp|e]; [|reflexivity].
  destruct (Z.eqb (returncode cp) 0); simpl.
  - destruct (json_requested json_output); reflexivity.
  - reflexivity.
Qed.

Lemma run_zmcp_spawned (command : string) (args : list string)
  (json_output : option bool) (w : world) :
  snd (run_zmcp tool json_loads command args json_output w) =
  after_spawn w (build_cmd command args (json_requested json_output)).
Proof. rewrite run_zmcp_eq. reflexivity. Qed.

(** C3: when the process exits with status zero and JSON was not requested,
    the call returns the captured standard output itself, as a [str] with
    every byte of it, trailing white space included, and nothing decoded. *)
Theorem run_zmcp_raw_output (command : string) (args : list string)
  (json_output : option bool) (w : world) (cp : CompletedProcess) :
  json_requested json_output = false ->
  tool (spawned w) (build_cmd command args false) = Ok cp ->
  returncode cp = 0%Z ->
  run_zmcp tool json_loads command args json_output w =
  (Ok (VStr (stdout cp)), after_spawn w (build_cmd command args false)).
Proof.
  intros Hj Ht Hrc. rewrite run_zmcp_eq, Hj, Ht, Hrc. reflexivity.
Qed.

(** C2: when the process exits with a non-zero status the call raises, with
    or without JSON requested; the exception's message is
    ["Command failed: "] followed by the captured standard error, so it
    contains that text verbatim. *)
Theorem run_zmcp_nonzero_raises (command : string) (args : list string)
  (json_output : option bool) (w : world) (cp : CompletedProcess) :
  tool (spawned w) (build_cmd command args (json_requested json_output)) = Ok cp ->
  returncode cp <> 0%Z ->
  exists msg,
    fst (run_zmcp tool json_loads command args json_output w) = Raise (Exception msg)
    /\ msg = "Command failed: " ++ stderr cp
    /\ str_contains (stderr cp) msg = true.
Proof.
  intros Ht Hrc. exists ("Command failed: " ++ stderr cp).
  rewrite run_zmcp_eq, Ht. cbn [fst].
  destruct (Z.eqb_spec (returncode cp) 0) as [E|_]; [contradiction|].
  cbn [negb]. repeat split. apply str_contains_append.
Qed.

(** C4: the argument list of the child process is the CLI path [zmcp], the
    command name, the positional arguments in their order, and then
    [--json] as the last element when the call leaves [json_output] out or
    gives it as true, and nothing more when it gives it as false; that
    list is the one process the call starts. *)
Theorem run_zmcp_argument_list (command : string) (args : list string)
  (json_output : option bool) (w : world) :
  spawned (snd (run_zmcp tool json_loads command args json_output w)) =
  (spawned w ++
   ["zmcp" :: command :: args ++
    match json_output with
    | None | Some true => ["--json"]
    | Some false => []
    end])%list.
Proof.
  rewrite run_zmcp_spawned, build_cmd_shape.
  destruct json_output as [[|]|]; reflexivity.
Qed.

(** C6, amended: when JSON was requested, the process exits with status
    zero and the decoder raises on the captured standard output, the call
    raises the decoder's exception; no value is returned, and no second
    process is started to try again. *)
Theorem run_zmcp_decode_failure (command : string) (args : list string)
  (json_output : option bool) (w : world) (cp : CompletedProcess) (e : exn) :
  json_requested json_output = true ->
  tool (spawned w) (build_cmd command args true) = Ok cp ->
  returncode cp = 0%Z ->
  json_loads (stdout cp) = Raise e ->
  run_zmcp tool json_loads command args json_output w =
  (Raise e, after_spawn w (build_cmd command args true)).
Proof.
  intros Hj Ht Hrc He. rewrite run_zmcp_eq, Hj, Ht, Hrc. simpl.
  rewrite He. reflexivity.
Qed.

(** C10: a call that does not give [json_output] requests JSON: [--json]
    ends the argument list of the process it starts, and when that process
    exits with status zero the call gives what the decoder gives on the
    captured standard output, not the raw text. *)
Theorem run_zmcp_default_json (command : string) (args : list string) (w : world) :
  json_requested None = true
  /\ run_zmcp tool json_loads command args None w =
     run_zmcp tool json_loads command args (Some true) w
  /\ spawned (snd (run_zmcp tool json_loads command args None w)) =
     (spawned w ++ [CLI_PATH :: command :: args ++ ["--json"]])%list
  /\ forall cp,
       tool (spawned w) (CLI_PATH :: command :: args ++ ["--json"])%list = Ok cp ->
       returncode cp = 0%Z ->
       fst (run_zmcp tool json_loads command args None w) = json_loads (stdout cp).
Proof.
  repeat split.
  - rewrite run_zmcp_spawned, build_cmd_shape. reflexivity.
  - intros cp Ht Hrc. rewrite run_zmcp_eq. simpl json_requested.
    rewrite build_cmd_shape. unfold base_cmd, json_flag. simpl.
    simpl in Ht. rewrite Ht, Hrc. reflexivity.
Qed.

End RunFacts.

(** C1: when the process exits with status zero and JSON was requested, the
    call gives exactly what the decoder gives on the captured standard
    output. With the reference decoder, [search "hemoglobin"] against a
    tool that emits the one-item document and exits with status zero
    gives a list of one element whose [key] is ["ABC123"]. *)
Theorem run_zmcp_json_output :
  (forall (tool : tool_t) (json_loads : string -> result value)
          (command : string) (args : list string) (json_output : option bool)
          (w : world) (cp : CompletedProcess),
      json_requested json_output = true ->
      tool (spawned w) (build_cmd command args true) = Ok cp ->
      returncode cp = 0%Z ->
      run_zmcp tool json_loads command args json_output w =
      (json_loads (stdout cp), after_spawn w (build_cmd command args true)))
  /\ (forall (tool : tool_t) (w : world) (err : string),
         tool (spawned w) ["zmcp"; "search"; "hemoglobin"; "--json"] =
         Ok {| returncode := 0; stdout := Mock.hemoglobin_doc; stderr := err |} ->
         exists item,
           fst (run_zmcp tool Json.loads "search" ["hemoglobin"] None w) =
           Ok (VList [item])
           /\ getitem item "key" = Ok (VStr "ABC123")).
Proof.
  split.
  - intros tool json_loads command args json_output w cp Hj Ht Hrc.
    rewrite run_zmcp_eq, Hj, Ht, Hrc. reflexivity.
  - intros tool w err Ht.
    exists (VDict [("title", VStr "Hemoglobin structure"); ("key", VStr "ABC123")]).
    rewrite run_zmcp_eq. simpl json_requested.
    change (build_cmd "search" ["hemoglobin"] true)
      with ["zmcp"; "search"; "hemoglobin"; "--json"].
    rewrite Ht. split; reflexivity.
Qed.

(** ** The call sites *)

Lemma comprehension_filter (cond : value -> result bool) (p : value -> bool)
  (l : list value) :
  Forall (fun x => cond x = Ok (p x)) l ->
  comprehension cond l = Ok (filter p l).
Proof.
  induction 1 as [|x l Hx _ IH]; cbn [comprehension filter].
  - reflexivity.
  - rewrite Hx, IH. reflexivity.
Qed.

Lemma is_attachment_spec (c : value) :
  has_field "itemType" c = true ->
  is_attachment c = Ok (item_type_is "attachment" c).
Proof.
  unfold has_field, is_attachment, item_type_is, getitem.
  destruct c as [| | | | |l|d]; try discriminate.
  destruct (dict_lookup "itemType" d) as [x|]; [|discriminate].
  intros _. destruct x; reflexivity.
Qed.

Lemma is_pdb_spec (a : value) :
  text_or_absent "contentType" a = true ->
  is_pdb a = Ok (content_type_has "pdb" a).
Proof.
  unfold text_or_absent, is_pdb, content_type_has, py_get.
  destruct a as [| | | | |l|d]; try discriminate.
  destruct (dict_lookup "contentType" d) as [x|]; [|reflexivity].
  destruct x; try discriminate. reflexivity.
Qed.

(** C7, amended: when the children are a list of mappings that each have
    an [itemType], the first filter gives exactly the children whose item
    type is [attachment], in their order; when moreover the content type
    of each of those is absent or text, the second filter gives exactly
    those whose content type contains [pdb]. *)
Theorem attachment_filters (cs : list value) :
  Forall (fun c => has_field "itemType" c = true) cs ->
  Forall (fun a => text_or_absent "contentType" a = true)
         (filter (item_type_is "attachment") cs) ->
  attachments_of (VList cs) = Ok (filter (item_type_is "attachment") cs)
  /\ pdb_attachments_of (filter (item_type_is "attachment") cs) =
     Ok (filter (content_type_has "pdb") (filter (item_type_is "attachment") cs)).
Proof.
  intros Hty Hct. split.
  - unfold attachments_of, py_iter. apply comprehension_filter.
    eapply Forall_impl; [|exact Hty]. intros c Hc. apply is_attachment_spec, Hc.
  - unfold pdb_attachments_of. apply comprehension_filter.
    eapply Forall_impl; [|exact Hct]. intros a Ha. apply is_pdb_spec, Ha.
Qed.

(** An attachment whose [contentType] is [null] passes the first filter
    and makes the second one raise [TypeError]. *)
Lemma null_content_type_raises :
  attachments_of
    (VList [VDict [("itemType", VStr "attachment"); ("contentType", VNone)];
            Mock.note]) =
  Ok [VDict [("itemType", VStr "attachment"); ("contentType", VNone)]]
  /\ pdb_attachments_of
       [VDict [("itemType", VStr "attachment"); ("contentType", VNone)]] =
     Raise TypeError.
Proof. split; reflexivity. Qed.

(** C7 as stated fails: with an attachment and a child that has no
    [itemType], the first filter raises [KeyError] instead of giving the
    attachment. *)
Lemma attachment_filters_counterexample :
  attachments_of
    (VList [Mock.attachment "chemical/x-pdb"; VDict [("key", VStr "NOTE1")]]) =
  Raise (KeyError (VStr "itemType"))
  /\ filter (item_type_is "attachment")
       [Mock.attachment "chemical/x-pdb"; VDict [("key", VStr "NOTE1")]] =
     [Mock.attachment "chemical/x-pdb"]
  /\ attachments_of
       (VList [Mock.attachment "chemical/x-pdb"; VDict [("key", VStr "NOTE1")]]) <>
     Ok (filter (item_type_is "attachment")
           [Mock.attachment "chemical/x-pdb"; VDict [("key", VStr "NOTE1")]]).
Proof. repeat split. discriminate. Qed.

(** *** Field reads *)

Lemma first_missing_spec (d : list (string * value)) (ks : list string) (k : string) :
  first_missing d ks = Some k -> In k ks /\ dict_lookup k d = None.
Proof.
  induction ks as [|k0 ks IH]; cbn [first_missing]; [discriminate|].
  destruct (dict_lookup k0 d) eqn:E.
  - intros H. destruct (IH H) as [Hin Hk]. split; [right; exact Hin | exact Hk].
  - intros H. injection H as <-. split; [left; reflexivity | exact E].
Qed.

Lemma missing_has_first (d : list (string * value)) (ks : list string) (k : string) :
  In k ks -> dict_lookup k d = None -> exists k', first_missing d ks = Some k'.
Proof.
  induction ks as [|k0 ks IH]; cbn [first_missing In]; [contradiction|].
  intros [->|Hin] Hk.
  - rewrite Hk. exists k. reflexivity.
  - destruct (dict_lookup k0 d); [apply IH; assumption | exists k0; reflexivity].
Qed.

(** Reading and printing a list of fields stops with [KeyError] at the
    first missing one when the values before it can be printed. *)
Lemma field_trace_missing (line_of : string -> value -> line)
  (d : list (string * value)) (ks : list string) (k : string) :
  first_missing d ks = Some k ->
  fields_printable d ks = true ->
  fst (field_trace line_of d ks) = Raise (KeyError (VStr k)).
Proof.
  induction ks as [|k0 ks IH]; cbn [first_missing fields_printable forallb field_trace];
    [discriminate|].
  destruct (dict_lookup k0 d) as [v|].
  - intros Hm Hp. apply andb_prop in Hp. destruct Hp as [Hv Hp]. rewrite Hv.
    specialize (IH Hm Hp). destruct (field_trace line_of d ks) as [r ls].
    exact IH.
  - intros Hm _. injection Hm as <-. reflexivity.
Qed.

Lemma field_trace_complete (line_of : string -> value -> line)
  (d : list (string * value)) (ks : list string) :
  first_missing d ks = None ->
  fields_printable d ks = true ->
  fst (field_trace line_of d ks) = Ok tt
  /\ List.length (snd (field_trace line_of d ks)) = List.length ks.
Proof.
  induction ks as [|k0 ks IH]; cbn [first_missing fields_printable forallb field_trace].
  - intros _ _. split; reflexivity.
  - destruct (dict_lookup k0 d) as [v|]; [|discriminate].
    intros Hm Hp. apply andb_prop in Hp. destruct Hp as [Hv Hp]. rewrite Hv.
    destruct (IH Hm Hp) as [Hr Hl]. destruct (field_trace line_of d ks) as [r ls].
    cbn [fst snd List.length] in *. split; [exact Hr | rewrite Hl; reflexivity].
Qed.

(** One read of a field followed by the print of its line. *)
Ltac read_print :=
  lazymatch goal with
  | |- context [bind (lift (match dict_lookup ?k ?d with _ => _ end)) _ _] =>
      destruct (dict_lookup k d) as [?v|]; cbv beta iota;
      [ rewrite bind_lift;
        lazymatch goal with
        | |- context [printable_value ?x] =>
            let H := fresh "Hv" in
            destruct (printable_value x) eqn:H; cbv beta iota;
            [ rewrite ?bind_print, ?print_ok by line_ok
            | rewrite ?bind_print_fail, ?print_fail
                by (cbn [forallb encodable]; rewrite H; reflexivity);
              cbn [fst snd]; rewrite ?after_print_app, ?after_print_nil;
              reflexivity ]
        end
      | cbn [fst snd]; rewrite ?after_print_app, ?after_print_nil; reflexivity ]
  end.

(** What Example 1 does on a mapping. *)
Lemma show_fetched_eq (d : list (string * value)) (output_file : string)
  (w : world) :
  show_fetched (VDict d) output_file w =
  (fst (field_trace (fetched_line output_file) d fetched_fields),
   after_print w (snd (field_trace (fetched_line output_file) d fetched_fields))).
Proof.
  unfold show_fetched, getitem, fetched_fields. cbn [field_trace].
  do 6 read_print.
  rewrite ?after_print_app. reflexivity.
Qed.

(** What Example 2 does on a mapping. *)
Lemma show_saved_eq (d : list (string * value)) (w : world) :
  show_saved (VDict d) w =
  (fst (field_trace saved_line d saved_fields),
   after_print w (snd (field_trace saved_line d saved_fields))).
Proof.
  unfold show_saved, getitem, saved_fields. cbn [field_trace].
  do 5 read_print.
  rewrite ?after_print_app. reflexivity.
Qed.

(** The loop body of Example 3 reads [title] and then [key]. *)
Lemma summarize_missing (i : Z) (d : list (string * value)) (k : string) (w : world) :
  first_missing d ["title"; "key"] = Some k ->
  summarize (i, VDict d) w = (Raise (KeyError (VStr k)), w).
Proof.
  unfold summarize, getitem. cbn [first_missing].
  destruct (dict_lookup "title" d); [|intros H; injection H as <-; reflexivity].
  destruct (dict_lookup "key" d); [discriminate|].
  intros H. injection H as <-. reflexivity.
Qed.

(** Line 88 reads [itemType] of every child. *)
Lemma attachments_of_missing (pre : list value) (d : list (string * value))
  (post : list value) :
  Forall (fun c => has_field "itemType" c = true) pre ->
  dict_lookup "itemType" d = None ->
  attachments_of (VList (pre ++ VDict d :: post)) = Raise (KeyError (VStr "itemType")).
Proof.
  intros Hpre Hd. unfold attachments_of, py_iter.
  induction Hpre as [|c pre Hc _ IH]; cbn [app comprehension].
  - unfold is_attachment at 1, getitem. rewrite Hd. reflexivity.
  - rewrite (is_attachment_spec c Hc), IH. reflexivity.
Qed.

Section ReadFacts.

Variable tool : tool_t.
Variable json_loads : string -> result value.
Variable py_str : value -> string.

(** Example 4 reads [key] of the first item. *)
Lemma example4_missing_key (d : list (string * value)) (rest : list value)
  (w : world) :
  dict_lookup "key" d = None ->
  example4 tool json_loads py_str (VList (VDict d :: rest)) w =
  (Raise (KeyError (VStr "key")),
   after_print w [[Lit (newline ++ "Example 4: Get citation details")]; [Lit rule]]).
Proof.
  intros H. unfold example4. rewrite !bind_print by reflexivity.
  cbn [py_truthy getitem0]. rewrite bind_lift. unfold getitem. rewrite H.
  rewrite after_print_app. reflexivity.
Qed.

(** Example 4 reads [item] of the details first. *)
Lemma show_details_missing_item (dd : list (string * value)) (w : world) :
  dict_lookup "item" dd = None ->
  show_details tool json_loads py_str (VDict dd) w = (Raise (KeyError (VStr "item")), w).
Proof.
  intros H. unfold show_details, getitem. rewrite H. reflexivity.
Qed.

(** Then [title] and [itemType] of the item. *)
Lemma show_details_missing_item_field (dd it : list (string * value)) (k : string)
  (w : world) :
  dict_lookup "item" dd = Some (VDict it) ->
  first_missing it ["title"; "itemType"] = Some k ->
  fields_printable it ["title"; "itemType"] = true ->
  exists w',
    show_details tool json_loads py_str (VDict dd) w = (Raise (KeyError (VStr k)), w').
Proof.
  intros Hit Hm Hp. unfold show_details.
  rewrite (bind_lift_ok (getitem (VDict dd) "item") _ (VDict it))
    by (unfold getitem; rewrite Hit; reflexivity).
  unfold getitem at 1. cbn [first_missing fields_printable forallb] in Hm, Hp.
  destruct (dict_lookup "title" it) as [t|].
  2:{ injection Hm as <-. eexists. reflexivity. }
  apply andb_prop in Hp. destruct Hp as [Ht Hp].
  rewrite bind_lift, bind_print by line_ok.
  rewrite (bind_lift_ok (getitem (VDict dd) "item") _ (VDict it))
    by (unfold getitem; rewrite Hit; reflexivity).
  unfold getitem at 1.
  destruct (dict_lookup "itemType" it) as [ty|]; [discriminate|].
  injection Hm as <-. eexists. reflexivity.
Qed.

(** Then, after the [DOI], [children] of the details. *)
Lemma show_details_missing_children (dd it : list (string * value)) (w : world) :
  dict_lookup "item" dd = Some (VDict it) ->
  first_missing it ["title"; "itemType"] = None ->
  fields_printable it ["title"; "itemType"; "DOI"] = true ->
  dict_lookup "children" dd = None ->
  exists w',
    show_details tool json_loads py_str (VDict dd) w =
    (Raise (KeyError (VStr "children")), w').
Proof.
  intros Hit Hm Hp Hch. unfold show_details.
  assert (Hitem : getitem (VDict dd) "item" = Ok (VDict it))
    by (unfold getitem; rewrite Hit; reflexivity).
  cbn [first_missing fields_printable forallb] in Hm, Hp.
  rewrite (bind_lift_ok _ _ _ _ Hitem). unfold getitem at 1.
  destruct (dict_lookup "title" it) as [t|]; [|discriminate].
  apply andb_prop in Hp. destruct Hp as [Ht Hp].
  rewrite bind_lift, bind_print by line_ok.
  rewrite (bind_lift_ok _ _ _ _ Hitem). unfold getitem at 1.
  destruct (dict_lookup "itemType" it) as [ty|]; [|discriminate].
  apply andb_prop in Hp. destruct Hp as [Hty Hp].
  rewrite bind_lift, bind_print by line_ok.
  rewrite (bind_lift_ok _ _ _ _ Hitem). unfold py_get.
  destruct (dict_lookup "DOI" it) as [doi|].
  - apply andb_prop in Hp. destruct Hp as [Hdoi _].
    rewrite bind_lift, bind_print by line_ok.
    unfold getitem. rewrite Hch. eexists. reflexivity.
  - rewrite bind_lift, bind_print by reflexivity.
    unfold getitem. rewrite Hch. eexists. reflexivity.
Qed.

(** With an item that has no [DOI] and no children, Example 4 prints the
    placeholder and completes. *)
Lemma show_details_no_doi (details : value) (fields : list (string * value))
  (title ty : value) (w : world) :
  getitem details "item" = Ok (VDict fields) ->
  getitem details "children" = Ok (VList []) ->
  dict_lookup "title" fields = Some title ->
  dict_lookup "itemType" fields = Some ty ->
  printable_value title = true ->
  printable_value ty = true ->
  dict_lookup "DOI" fields = None ->
  show_details tool json_loads py_str details w =
  (Ok tt,
   after_print w [[Lit "Citation: "; Fmt title]; [Lit "Type: "; Fmt ty];
                  [Lit "DOI: "; Fmt (VStr "N/A")];
                  [Lit "Attachments: "; Fmt (VInt 0)]]).
Proof.
  intros Hitem Hch Ht Hty Hpt Hpty Hdoi. unfold show_details.
  rewrite (bind_lift_ok _ _ _ _ Hitem). unfold getitem at 1. rewrite Ht.
  rewrite bind_lift, bind_print by line_ok.
  rewrite (bind_lift_ok _ _ _ _ Hitem). unfold getitem at 1. rewrite Hty.
  rewrite bind_lift, bind_print by line_ok.
  rewrite (bind_lift_ok _ _ _ _ Hitem). unfold py_get. rewrite Hdoi.
  rewrite bind_lift, bind_print by reflexivity.
  rewrite (bind_lift_ok _ _ _ _ Hch).
  cbn [attachments_of py_iter comprehension]. rewrite bind_lift.
  rewrite bind_print by reflexivity.
  cbn [pdb_attachments_of comprehension]. rewrite bind_lift.
  cbn [download_first ret]. rewrite !after_print_app. reflexivity.
Qed.

(** The download reads [key] and [filename] of the first PDB attachment. *)
Lemma download_first_missing (d : list (string * value)) (rest : list value)
  (k : string) (w : world) :
  first_missing d ["key"; "filename"] = Some k ->
  download_first tool json_loads py_str (VDict d :: rest) w =
  (Raise (KeyError (VStr k)), w).
Proof.
  unfold download_first, getitem. cbn [first_missing].
  destruct (dict_lookup "key" d); [|intros H; injection H as <-; reflexivity].
  destruct (dict_lookup "filename" d); [discriminate|].
  intros H. injection H as <-. reflexivity.
Qed.

(** And [size] of the result of the download. *)
Lemma download_first_missing_size (first : value) (rest : list value)
  (key : string) (filename : value) (r : list (string * value)) (w : world) :
  getitem first "key" = Ok (VStr key) ->
  getitem first "filename" = Ok filename ->
  fst (run_zmcp tool json_loads "download" [key; py_format py_str filename] None w) =
  Ok (VDict r) ->
  dict_lookup "size" r = None ->
  download_first tool json_loads py_str (first :: rest) w =
  (Raise (KeyError (VStr "size")),
   after_spawn w (download_cmd key (py_format py_str filename))).
Proof.
  intros Hk Hf Hrun Hsize. unfold download_first.
  rewrite (bind_lift_ok _ _ _ _ Hk), (bind_lift_ok _ _ _ _ Hf). cbv zeta.
  cbn [as_arg]. rewrite bind_lift.
  apply result_and_world in Hrun. rewrite run_zmcp_spawned in Hrun.
  rewrite (bind_ok _ _ _ _ _ Hrun).
  unfold getitem. rewrite Hsize. reflexivity.
Qed.

(** The body of the batch reads [pdbId] and [title] of the fetched result;
    the loop catches the error. *)
Lemma fetch_one_missing (pdb_id : string) (structures : list value)
  (d : list (string * value)) (k : string) (w : world) :
  fst (run_zmcp tool json_loads "fetch-pdb" [pdb_id; "--output"; pdb_id ++ ".pdb"]
         None w) = Ok (VDict d) ->
  first_missing d ["pdbId"; "title"] = Some k ->
  fetch_one tool json_loads pdb_id structures w =
  (Raise (KeyError (VStr k)), after_spawn w (fetch_cmd pdb_id)).
Proof.
  intros Hrun Hm. unfold fetch_one. cbv zeta.
  apply result_and_world in Hrun. rewrite run_zmcp_spawned in Hrun.
  rewrite (bind_ok _ _ _ _ _ Hrun).
  unfold getitem. cbn [first_missing] in Hm.
  destruct (dict_lookup "pdbId" d); [|injection Hm as <-; reflexivity].
  destruct (dict_lookup "title" d); [discriminate|].
  injection Hm as <-. reflexivity.
Qed.

(** The workflow reads [itemKey] of the saved result. *)
Lemma colab_missing_item_key (pdb_id : string) (save_to_zotero : option bool)
  (data : value) (z : list (string * value)) (w : world) :
  save_to_zotero = None \/ save_to_zotero = Some true ->
  fst (run_zmcp tool json_loads "fetch-pdb"
         [pdb_id; "--output"; "/content/" ++ pdb_id ++ ".pdb"] None w) = Ok data ->
  fst (run_zmcp tool json_loads "save-pdb"
         [pdb_id; "--collection"; "Colab Structures"] None
         (after_spawn w (colab_fetch_cmd pdb_id))) = Ok (VDict z) ->
  dict_lookup "itemKey" z = None ->
  colab_pdb_workflow tool json_loads pdb_id save_to_zotero w =
  (Raise (KeyError (VStr "itemKey")),
   after_spawn (after_spawn w (colab_fetch_cmd pdb_id)) (colab_save_cmd pdb_id)).
Proof.
  intros Hsave Hfetch Hzr Hkey.
  assert (Hs : match save_to_zotero with Some b => b | None => true end = true)
    by (destruct Hsave as [->| ->]; reflexivity).
  unfold colab_pdb_workflow. cbv zeta. rewrite Hs.
  apply result_and_world in Hfetch. rewrite run_zmcp_spawned in Hfetch.
  rewrite (bind_ok _ _ _ _ _ Hfetch).
  apply result_and_world in Hzr. rewrite run_zmcp_spawned in Hzr.
  apply bind_raise. rewrite (bind_ok _ _ _ _ _ Hzr).
  unfold getitem. rewrite Hkey. reflexivity.
Qed.

(** Or, without saving, [fileSize] of the fetched result. *)
Lemma colab_missing_file_size (pdb_id : string) (d : list (string * value))
  (w : world) :
  fst (run_zmcp tool json_loads "fetch-pdb"
         [pdb_id; "--output"; "/content/" ++ pdb_id ++ ".pdb"] None w) =
  Ok (VDict d) ->
  dict_lookup "fileSize" d = None ->
  colab_pdb_workflow tool json_loads pdb_id (Some false) w =
  (Raise (KeyError (VStr "fileSize")), after_spawn w (colab_fetch_cmd pdb_id)).
Proof.
  intros Hfetch Hsize. unfold colab_pdb_workflow. cbv beta iota zeta.
  apply result_and_world in Hfetch. rewrite run_zmcp_spawned in Hfetch.
  rewrite (bind_ok _ _ _ _ _ Hfetch).
  unfold getitem. rewrite Hsize. reflexivity.
Qed.

End ReadFacts.

(** C8, amended: two field reads are optional lookups with a default, the
    item's [DOI] (default ['N/A']) and an attachment's [contentType]
    (default the empty text), and neither fails on a mapping that lacks
    the key. Every other field read is a plain subscript: when it is
    reached on a mapping that lacks the key it raises [KeyError] for that
    key. That is so for the six fields of Example 1 and the five of
    Example 2, read in order, for [title] and [key] of a search hit, for
    [key] of the first hit, [item], its [title] and [itemType],
    [children] and the [itemType] of each child, for [key] and [filename]
    of the attachment and [size] of the download in Example 4, for
    [pdbId] and [title] in the batch, and for [itemKey] and [fileSize] in
    the workflow. *)
Theorem field_reads :
  (forall tool json_loads py_str details fields title ty w,
      getitem details "item" = Ok (VDict fields) ->
      getitem details "children" = Ok (VList []) ->
      dict_lookup "title" fields = Some title ->
      dict_lookup "itemType" fields = Some ty ->
      printable_value title = true ->
      printable_value ty = true ->
      dict_lookup "DOI" fields = None ->
      show_details tool json_loads py_str details w =
      (Ok tt,
       after_print w [[Lit "Citation: "; Fmt title]; [Lit "Type: "; Fmt ty];
                      [Lit "DOI: "; Fmt (VStr "N/A")];
                      [Lit "Attachments: "; Fmt (VInt 0)]]))
  /\ (forall d, dict_lookup "contentType" d = None -> is_pdb (VDict d) = Ok false)
  /\ (forall d output_file k w,
         first_missing d ["pdbId"; "title"; "authors"; "method"; "doi"; "fileSize"] =
         Some k ->
         fields_printable d ["pdbId"; "title"; "authors"; "method"; "doi"; "fileSize"] =
         true ->
         exists w',
           show_fetched (VDict d) output_file w = (Raise (KeyError (VStr k)), w'))
  /\ (forall d k w,
         first_missing d ["itemKey"; "title"; "collection"; "hasFile"; "url"] = Some k ->
         fields_printable d ["itemKey"; "title"; "collection"; "hasFile"; "url"] = true ->
         exists w', show_saved (VDict d) w = (Raise (KeyError (VStr k)), w'))
  /\ (forall i d k w,
         first_missing d ["title"; "key"] = Some k ->
         summarize (i, VDict d) w = (Raise (KeyError (VStr k)), w))
  /\ (forall tool json_loads py_str d rest w,
         dict_lookup "key" d = None ->
         example4 tool json_loads py_str (VList (VDict d :: rest)) w =
         (Raise (KeyError (VStr "key")),
          after_print w
            [[Lit (newline ++ "Example 4: Get citation details")]; [Lit rule]]))
  /\ (forall tool json_loads py_str dd w,
         dict_lookup "item" dd = None ->
         show_details tool json_loads py_str (VDict dd) w =
         (Raise (KeyError (VStr "item")), w))
  /\ (forall tool json_loads py_str dd it k w,
         dict_lookup "item" dd = Some (VDict it) ->
         first_missing it ["title"; "itemType"] = Some k ->
         fields_printable it ["title"; "itemType"] = true ->
         exists w',
           show_details tool json_loads py_str (VDict dd) w =
           (Raise (KeyError (VStr k)), w'))
  /\ (forall tool json_loads py_str dd it w,
         dict_lookup "item" dd = Some (VDict it) ->
         first_missing it ["title"; "itemType"] = None ->
         fields_printable it ["title"; "itemType"; "DOI"] = true ->
         dict_lookup "children" dd = None ->
         exists w',
           show_details tool json_loads py_str (VDict dd) w =
           (Raise (KeyError (VStr "children")), w'))
  /\ (forall pre d post,
         Forall (fun c => has_field "itemType" c = true) pre ->
         dict_lookup "itemType" d = None ->
         attachments_of (VList (pre ++ VDict d :: post)) =
         Raise (KeyError (VStr "itemType")))
  /\ (forall tool json_loads py_str d rest k w,
         first_missing d ["key"; "filename"] = Some k ->
         download_first tool json_loads py_str (VDict d :: rest) w =
         (Raise (KeyError (VStr k)), w))
  /\ (forall tool json_loads py_str first rest key filename r w,
         getitem first "key" = Ok (VStr key) ->
         getitem first "filename" = Ok filename ->
         fst (run_zmcp tool json_loads "download" [key; py_format py_str filename]
                None w) = Ok (VDict r) ->
         dict_lookup "size" r = None ->
         download_first tool json_loads py_str (first :: rest) w =
         (Raise (KeyError (VStr "size")),
          after_spawn w ["zmcp"; "download"; key; py_format py_str filename; "--json"]))
  /\ (forall tool json_loads pdb_id structures d k w,
         fst (run_zmcp tool json_loads "fetch-pdb"
                [pdb_id; "--output"; pdb_id ++ ".pdb"] None w) = Ok (VDict d) ->
         first_missing d ["pdbId"; "title"] = Some k ->
         fetch_one tool json_loads pdb_id structures w =
         (Raise (KeyError (VStr k)), after_spawn w (fetch_cmd pdb_id)))
  /\ (forall tool json_loads pdb_id save_to_zotero data z w,
         save_to_zotero = None \/ save_to_zotero = Some true ->
         fst (run_zmcp tool json_loads "fetch-pdb"
                [pdb_id; "--output"; "/content/" ++ pdb_id ++ ".pdb"] None w) =
         Ok data ->
         fst (run_zmcp tool json_loads "save-pdb"
                [pdb_id; "--collection"; "Colab Structures"] None
                (after_spawn w (colab_fetch_cmd pdb_id))) = Ok (VDict z) ->
         dict_lookup "itemKey" z = None ->
         colab_pdb_workflow tool json_loads pdb_id save_to_zotero w =
         (Raise (KeyError (VStr "itemKey")),
          after_spawn (after_spawn w (colab_fetch_cmd pdb_id)) (colab_save_cmd pdb_id)))
  /\ (forall tool json_loads pdb_id d w,
         fst (run_zmcp tool json_loads "fetch-pdb"
                [pdb_id; "--output"; "/content/" ++ pdb_id ++ ".pdb"] None w) =
         Ok (VDict d) ->
         dict_lookup "fileSize" d = None ->
         colab_pdb_workflow tool json_loads pdb_id (Some false) w =
         (Raise (KeyError (VStr "fileSize")), after_spawn w (colab_fetch_cmd pdb_id))).
Proof.
  repeat apply conj.
  - intros. eapply show_details_no_doi; eassumption.
  - intros d H. unfold is_pdb, py_get. rewrite H. reflexivity.
  - intros d output_file k w Hm Hp. eexists. rewrite show_fetched_eq.
    unfold fetched_fields. rewrite (field_trace_missing _ _ _ _ Hm Hp). reflexivity.
  - intros d k w Hm Hp. eexists. rewrite show_saved_eq.
    unfold saved_fields. rewrite (field_trace_missing _ _ _ _ Hm Hp). reflexivity.
  - intros. apply summarize_missing. assumption.
  - intros. apply example4_missing_key. assumption.
  - intros. apply show_details_missing_item. assumption.
  - intros. eapply show_details_missing_item_field; eassumption.
  - intros. eapply show_details_missing_children; eassumption.
  - intros. apply attachments_of_missing; assumption.
  - intros. apply download_first_missing. assumption.
  - intros. eapply download_first_missing_size; eassumption.
  - intros. eapply fetch_one_missing; eassumption.
  - intros. eapply colab_missing_item_key; eassumption.
  - intros. eapply colab_missing_file_size; eassumption.
Qed.

(** C8 as stated fails: on a decoded result without [pdbId] the first
    field read of Example 1 raises [KeyError] and nothing is printed. *)
Lemma field_reads_counterexample :
  show_fetched (VDict [("title", VStr "Hemoglobin")]) "hemoglobin.pdb" Mock.w0 =
  (Raise (KeyError (VStr "pdbId")), Mock.w0).
Proof. reflexivity. Qed.
(** *** The search summary *)

Lemma enumerate_snd (P : value -> Prop) (l : list value) :
  Forall P l -> forall start, Forall (fun e => P (snd e)) (enumerate start l).
Proof.
  induction 1 as [|x l Hx _ IH]; intros start; cbn [enumerate]; constructor.
  - exact Hx.
  - apply IH.
Qed.

Lemma enumerate_length (l : list value) (start : Z) :
  List.length (enumerate start l) = List.length l.
Proof.
  revert start. induction l as [|x l IH]; intros start; cbn [enumerate List.length].
  - reflexivity.
  - rewrite IH. reflexivity.
Qed.

Lemma has_field_getitem (k : string) (v : value) :
  has_field k v = true -> exists x, getitem v k = Ok x.
Proof.
  unfold has_field, getitem. destruct v; try discriminate.
  destruct (dict_lookup k fields) as [x|]; [|discriminate].
  intros _. exists x. reflexivity.
Qed.

Lemma printable_field_getitem (k : string) (v : value) :
  printable_field k v = true ->
  exists x, getitem v k = Ok x /\ printable_value x = true.
Proof.
  unfold printable_field, getitem. destruct v; try discriminate.
  destruct (dict_lookup k fields) as [x|]; [|discriminate].
  intros H. exists x. split; [reflexivity | exact H].
Qed.

Lemma summarize_eq (i : Z) (item title key : value) (w : world) :
  getitem item "title" = Ok title ->
  getitem item "key" = Ok key ->
  printable_value title = true ->
  printable_value key = true ->
  summarize (i, item) w = (Ok tt, after_print w [summary_line i title key]).
Proof.
  intros Et Ek Ht Hk. unfold summarize.
  rewrite (bind_lift_ok _ _ _ _ Et), (bind_lift_ok _ _ _ _ Ek).
  unfold summary_line. apply print_ok. line_ok.
Qed.

Lemma for_each_summarize (es : list (Z * value)) :
  Forall (fun e => printable_field "title" (snd e) = true
                   /\ printable_field "key" (snd e) = true) es ->
  forall w, exists lines,
    for_each es summarize w = (Ok tt, after_print w lines)
    /\ Forall2 summarizes es lines.
Proof.
  induction 1 as [|[i item] es [Ht Hk] _ IH]; intros w.
  - exists []. split; [|constructor].
    unfold after_print. cbn [for_each ret]. rewrite app_nil_r.
    destruct w; reflexivity.
  - cbn [snd] in Ht, Hk.
    destruct (printable_field_getitem _ _ Ht) as [title [Et Hpt]].
    destruct (printable_field_getitem _ _ Hk) as [key [Ek Hpk]].
    destruct (IH (after_print w [summary_line i title key])) as [lines [Erun Hall]].
    exists (summary_line i title key :: lines). split.
    + cbn [for_each]. unfold bind.
      rewrite (summarize_eq i item title key w Et Ek Hpt Hpk), Erun, after_print_app.
      reflexivity.
    + constructor; [|exact Hall].
      exists title, key. cbn [fst snd]. repeat split; assumption.
Qed.

(** C9, amended: for a list of items each of whose first five is a mapping
    with a title and a key that can be printed, the header counts every
    item, and each of the first five items, no other, is summarized by
    one line that holds its position, its title and its key. *)
Theorem search_summary_first_five (query : string) (l : list value) (w : world) :
  Forall (fun item => printable_field "title" item = true
                      /\ printable_field "key" item = true) (firstn 5 l) ->
  exists lines,
    search_summary query (VList l) w =
    (Ok tt, after_print w (found_line (Z.of_nat (List.length l)) query :: lines))
    /\ Forall2 summarizes (enumerate 1 (firstn 5 l)) lines
    /\ List.length lines = Nat.min 5 (List.length l).
Proof.
  intros H.
  destruct (for_each_summarize (enumerate 1 (firstn 5 l))
              (enumerate_snd _ _ H 1%Z)
              (after_print w [found_line (Z.of_nat (List.length l)) query]))
    as [lines [Erun Hall]].
  exists lines. split; [|split].
  - unfold search_summary. cbn [py_len py_slice_to py_iter].
    rewrite bind_lift, bind_print by reflexivity.
    cbn [py_slice_to]. rewrite bind_lift. cbn [py_iter]. rewrite bind_lift.
    unfold found_line in *. rewrite Erun, after_print_app. reflexivity.
  - exact Hall.
  - rewrite <- (Forall2_length Hall), enumerate_length. apply length_firstn.
Qed.

(** C9 as stated fails: of six items, each with a title and a key, five
    are summarized and the sixth is not. *)
Lemma search_summary_counterexample :
  List.length Mock.six_items = 6%nat
  /\ List.length
       (printed (snd (search_summary "hemoglobin" (VList Mock.six_items) Mock.w0))) =
     (1 + 5)%nat
  /\ ~ In (summary_line 6 (VStr "Title 6") (VStr "KEY6"))
          (printed (snd (search_summary "hemoglobin" (VList Mock.six_items) Mock.w0))).
Proof.
  split; [reflexivity|]. split; [reflexivity|].
  vm_compute. intros H.
  repeat (destruct H as [H|H]; [discriminate H|]). exact H.
Qed.

(** *** The batch loop *)

Section BatchFacts.

Variable tool : tool_t.
Variable json_loads : string -> result value.

Lemma try_ok {A : Type} (m : M A) (handler : exn -> M A) (a : A) (w w' : world) :
  m w = (Ok a, w') -> try_except m handler w = (Ok a, w').
Proof. intros H. unfold try_except. rewrite H. reflexivity. Qed.

Lemma try_raise {A : Type} (m : M A) (handler : exn -> M A) (e : exn)
  (w w' : world) :
  m w = (Raise e, w') -> try_except m handler w = handler e w'.
Proof. intros H. unfold try_except. rewrite H. reflexivity. Qed.

(** The body of the [try] adds the record of [pdb_id] and prints its line
    exactly when the decoded result can be printed; in every other case
    it raises, having started its one process. *)
Lemma fetch_one_eq (pdb_id : string) (structures : list value) (w : world) :
  match fetched tool json_loads (spawned w) pdb_id with
  | Some data =>
      exists ln,
        fetch_one tool json_loads pdb_id structures w =
        (Ok (structures ++ [structure_record pdb_id data])%list,
         after_print (after_spawn w (fetch_cmd pdb_id)) [ln])
  | None =>
      exists e,
        fetch_one tool json_loads pdb_id structures w =
        (Raise e, after_spawn w (fetch_cmd pdb_id))
  end.
Proof.
  pose proof (run_zmcp_eq tool json_loads "fetch-pdb"
                [pdb_id; "--output"; pdb_id ++ ".pdb"] None w) as E.
  cbn [json_requested] in E.
  change (build_cmd "fetch-pdb" [pdb_id; "--output"; pdb_id ++ ".pdb"] true)
    with (fetch_cmd pdb_id) in E.
  unfold fetch_one. cbv zeta. unfold fetched, invocation_succeeds.
  destruct (tool (spawned w) (fetch_cmd pdb_id)) as [cp|e];
    [|eexists; apply bind_raise; exact E].
  destruct (Z.eqb (returncode cp) 0); cbn [negb] in E;
    [|eexists; apply bind_raise; exact E].
  destruct (json_loads (stdout cp)) as [data|e];
    [|eexists; apply bind_raise; exact E].
  unfold printable. rewrite (bind_ok _ _ _ _ _ E).
  destruct (getitem data "pdbId") as [id|e]; [|eexists; reflexivity].
  rewrite bind_lift.
  destruct (getitem data "title") as [title|e]; [|eexists; reflexivity].
  rewrite bind_lift.
  destruct (py_slice_to 50 title) as [short|e]; [|eexists; reflexivity].
  rewrite bind_lift.
  destruct (printable_value id) eqn:Hid.
  2:{ eexists. rewrite bind_print_fail
        by (cbn [forallb encodable]; rewrite Hid; reflexivity).
      reflexivity. }
  destruct (printable_value short) eqn:Hshort.
  2:{ eexists. rewrite bind_print_fail
        by (cbn [forallb encodable]; rewrite Hid, Hshort; reflexivity).
      reflexivity. }
  eexists. rewrite bind_print by line_ok. reflexivity.
Qed.

(** One iteration starts one process, prints one line, and adds the
    record of [pdb_id] exactly when the decoded result could be printed. *)
Lemma iteration_eq (pdb_id : string) (structures : list value) (w : world) :
  exists ln,
    try_except (fetch_one tool json_loads pdb_id structures)
      (fun e =>
         print [Lit (cross_mark ++ " Failed to fetch "); Txt pdb_id; Lit ": ";
                FmtExn e] ;;
         ret structures) w =
    (Ok (structures ++
         match fetched tool json_loads (spawned w) pdb_id with
         | Some data => [structure_record pdb_id data]
         | None => []
         end)%list,
     after_print (after_spawn w (fetch_cmd pdb_id)) [ln]).
Proof.
  pose proof (fetch_one_eq pdb_id structures w) as H.
  destruct (fetched tool json_loads (spawned w) pdb_id) as [data|].
  - destruct H as [ln H]. exists ln. apply try_ok. exact H.
  - destruct H as [e H]. exists (failed_line pdb_id e).
    rewrite (try_raise _ _ _ _ _ H), app_nil_r. reflexivity.
Qed.

Lemma batch_loop_eq (pdb_ids : list string) :
  forall (structures : list value) (w : world),
  exists lines,
    batch_loop tool json_loads pdb_ids structures w =
    (Ok (structures ++ collected tool json_loads pdb_ids (spawned w))%list,
     {| spawned := spawned w ++ map fetch_cmd pdb_ids;
        printed := printed w ++ lines |})
    /\ List.length lines = List.length pdb_ids.
Proof.
  induction pdb_ids as [|pdb_id rest IH]; intros structures w.
  - exists []. split; [|reflexivity]. cbn [batch_loop collected map ret].
    rewrite !app_nil_r. destruct w; reflexivity.
  - destruct (iteration_eq pdb_id structures w) as [ln Eit].
    destruct (IH (structures ++
                  match fetched tool json_loads (spawned w) pdb_id with
                  | Some data => [structure_record pdb_id data]
                  | None => []
                  end)%list
                 (after_print (after_spawn w (fetch_cmd pdb_id)) [ln]))
      as [lines [Erun Hlen]].
    exists (ln :: lines). split; [|cbn [List.length]; rewrite Hlen; reflexivity].
    cbn [batch_loop]. unfold bind at 1. rewrite Eit, Erun.
    cbn [collected map spawned printed after_print after_spawn].
    rewrite <- !app_assoc. reflexivity.
Qed.

Lemma collected_app (l1 l2 : list string) :
  forall hist,
    collected tool json_loads (l1 ++ l2) hist =
    (collected tool json_loads l1 hist ++
     collected tool json_loads l2 (hist ++ map fetch_cmd l1))%list.
Proof.
  induction l1 as [|a l1 IH]; intros hist.
  - cbn [app collected map]. rewrite app_nil_r. reflexivity.
  - cbn [app collected map]. rewrite IH, <- !app_assoc. reflexivity.
Qed.

Lemma collected_all (l : list string) :
  forall hist,
    (forall i pdb_id,
        nth_error l i = Some pdb_id ->
        fetched tool json_loads (hist ++ map fetch_cmd (firstn i l)) pdb_id <> None) ->
    Forall2 is_record_of l (collected tool json_loads l hist).
Proof.
  induction l as [|a l IH]; intros hist H.
  - constructor.
  - cbn [collected].
    pose proof (H 0%nat a eq_refl) as H0.
    cbn [firstn map] in H0. rewrite app_nil_r in H0.
    destruct (fetched tool json_loads hist a) as [data|]; [|contradiction].
    cbn [app]. constructor.
    + exists data. reflexivity.
    + apply IH. intros i pdb_id Hi.
      specialize (H (S i) pdb_id Hi). cbn [firstn map] in H.
      rewrite <- app_assoc. exact H.
Qed.

Lemma exits_nonzero_not_fetched (hist : list (list string)) (pdb_id : string) :
  exits_nonzero tool hist pdb_id = true ->
  fetched tool json_loads hist pdb_id = None.
Proof.
  unfold exits_nonzero, fetched, invocation_succeeds.
  destruct (tool hist (fetch_cmd pdb_id)) as [cp|e]; [|reflexivity].
  destruct (Z.eqb (returncode cp) 0); [discriminate | reflexivity].
Qed.

(** C5, amended: in a batch where one invocation exits with a non-zero
    status and every other exits with status zero and decodes to a mapping
    that has a [pdbId] that can be printed and a [title] that can be
    sliced to text or a list that can be printed, every identifier is
    attempted, and the result has one record less than there are
    identifiers: the records of the other identifiers in their order. *)
Theorem batch_one_failure (pre : list string) (bad : string) (post : list string)
  (w : world) :
  (forall i pdb_id,
      nth_error (pre ++ bad :: post) i = Some pdb_id ->
      i <> List.length pre ->
      exists data,
        invocation_succeeds tool json_loads
          (hist_at w (pre ++ bad :: post) i) pdb_id = Some data
        /\ printable data = true) ->
  exits_nonzero tool (hist_at w (pre ++ bad :: post) (List.length pre)) bad = true ->
  exists structures w',
    batch_loop tool json_loads (pre ++ bad :: post) [] w = (Ok structures, w')
    /\ spawned w' = (spawned w ++ map fetch_cmd (pre ++ bad :: post))%list
    /\ List.length structures = (List.length (pre ++ bad :: post) - 1)%nat
    /\ Forall2 is_record_of (pre ++ post) structures.
Proof.
  intros Hgood Hbad.
  destruct (batch_loop_eq (pre ++ bad :: post) [] w) as [lines [Erun _]].
  assert (Hrec : Forall2 is_record_of (pre ++ post)
                   (collected tool json_loads (pre ++ bad :: post) (spawned w))).
  { rewrite collected_app. cbn [collected].
    unfold hist_at in Hbad. rewrite firstn_app, firstn_all, Nat.sub_diag in Hbad.
    cbn [firstn] in Hbad. rewrite app_nil_r in Hbad.
    rewrite (exits_nonzero_not_fetched _ _ Hbad). cbn [app].
    apply Forall2_app.
    - apply collected_all. intros i pdb_id Hi.
      assert (Hlt : (i < List.length pre)%nat)
        by (apply nth_error_Some; congruence).
      destruct (Hgood i pdb_id) as [data [Einv Hp]].
      + rewrite nth_error_app1; assumption.
      + lia.
      + unfold hist_at in Einv. rewrite firstn_app in Einv.
        replace (i - List.length pre)%nat with 0%nat in Einv by lia.
        cbn [firstn] in Einv. rewrite app_nil_r in Einv.
        unfold fetched. rewrite Einv, Hp. discriminate.
    - apply collected_all. intros j pdb_id Hj.
      destruct (Hgood (List.length pre + S j)%nat pdb_id) as [data [Einv Hp]].
      + rewrite nth_error_app2 by lia.
        replace (List.length pre + S j - List.length pre)%nat with (S j) by lia.
        exact Hj.
      + lia.
      + unfold hist_at in Einv. rewrite firstn_app_2 in Einv.
        cbn [firstn] in Einv. rewrite map_app in Einv. cbn [map] in Einv.
        unfold fetched. rewrite <- !app_assoc. cbn [app].
        rewrite Einv, Hp. discriminate. }
  eexists. eexists. split; [exact Erun|]. cbn [app spawned].
  split; [reflexivity|]. split; [|exact Hrec].
  rewrite <- (Forall2_length Hrec), !length_app. cbn [List.length]. lia.
Qed.

End BatchFacts.

(** C5 as stated fails: one invocation of four exits with a non-zero
    status, the other three exit with status zero and decode to an empty
    mapping; each of the three fails at line 112, inside the [try], and
    the result is empty. *)
Lemma batch_counterexample :
  exits_nonzero (Mock.batch_tool "2HHB" Mock.empty_doc)
    (hist_at Mock.w0 Mock.pdb_ids 2) "2HHB" = true
  /\ invocation_succeeds (Mock.batch_tool "2HHB" Mock.empty_doc) Json.loads
       (hist_at Mock.w0 Mock.pdb_ids 0) "4HHB" = Some (VDict [])
  /\ invocation_succeeds (Mock.batch_tool "2HHB" Mock.empty_doc) Json.loads
       (hist_at Mock.w0 Mock.pdb_ids 1) "1MBN" = Some (VDict [])
  /\ invocation_succeeds (Mock.batch_tool "2HHB" Mock.empty_doc) Json.loads
       (hist_at Mock.w0 Mock.pdb_ids 3) "1UBQ" = Some (VDict [])
  /\ fst (batch_loop (Mock.batch_tool "2HHB" Mock.empty_doc) Json.loads
            Mock.pdb_ids [] Mock.w0) = Ok []
  /\ List.length (@nil value) <> (List.length Mock.pdb_ids - 1)%nat.
Proof.
  repeat split; try reflexivity. cbn. discriminate.
Qed.

(** C6 as stated fails: the text [NaN] is not valid JSON, and with exit
    status zero and JSON requested the call returns the float that the
    decoder makes of it. *)
Lemma run_zmcp_decode_failure_counterexample :
  Json.is_json "NaN" = false
  /\ run_zmcp (Mock.always (mkCompleted 0 "NaN" EmptyString)) Json.loads
       "search" ["hemoglobin"] None Mock.w0 =
     (Ok (VFloat 0x7FF8000000000000),
      after_spawn Mock.w0 ["zmcp"; "search"; "hemoglobin"; "--json"]).
Proof. split; reflexivity. Qed.

(** ** Runs on concrete inputs *)

Lemma run_zmcp_json_output_witness :
  run_zmcp Mock.search_tool Json.loads "search" ["hemoglobin"] (Some true) Mock.w0 =
  (Json.loads Mock.hemoglobin_doc,
   after_spawn Mock.w0 ["zmcp"; "search"; "hemoglobin"; "--json"])
  /\ exists item,
       fst (run_zmcp Mock.search_tool Json.loads "search" ["hemoglobin"] None Mock.w0) =
       Ok (VList [item])
       /\ getitem item "key" = Ok (VStr "ABC123").
Proof.
  destruct run_zmcp_json_output as [Hgen Hex]. split.
  - apply (Hgen Mock.search_tool Json.loads "search" ["hemoglobin"] (Some true)
             Mock.w0 (mkCompleted 0 Mock.hemoglobin_doc EmptyString));
      reflexivity.
  - apply (Hex Mock.search_tool Mock.w0 EmptyString). reflexivity.
Defined.

Lemma run_zmcp_nonzero_raises_witness :
  exists msg,
    fst (run_zmcp Mock.failing_tool Json.loads "fetch-pdb" ["9XXX"] None Mock.w0) =
    Raise (Exception msg)
    /\ msg = "Command failed: " ++ "Error: PDB entry 9XXX not found" ++ newline
    /\ str_contains ("Error: PDB entry 9XXX not found" ++ newline) msg = true.
Proof.
  apply (run_zmcp_nonzero_raises Mock.failing_tool Json.loads "fetch-pdb" ["9XXX"]
           None Mock.w0
           (mkCompleted 1 EmptyString ("Error: PDB entry 9XXX not found" ++ newline))).
  - reflexivity.
  - discriminate.
Defined.

Lemma run_zmcp_raw_output_witness :
  run_zmcp Mock.text_tool Json.loads "search" ["hemoglobin"] (Some false) Mock.w0 =
  (Ok (VStr ("Found 3 items" ++ newline ++ "  ")),
   after_spawn Mock.w0 ["zmcp"; "search"; "hemoglobin"]).
Proof.
  apply (run_zmcp_raw_output Mock.text_tool Json.loads "search" ["hemoglobin"]
           (Some false) Mock.w0
           (mkCompleted 0 ("Found 3 items" ++ newline ++ "  ") EmptyString));
    reflexivity.
Defined.

Lemma run_zmcp_decode_failure_witness :
  run_zmcp Mock.garbled_tool Json.loads "search" ["hemoglobin"] None Mock.w0 =
  (Raise JSONDecodeError,
   after_spawn Mock.w0 ["zmcp"; "search"; "hemoglobin"; "--json"]).
Proof.
  apply (run_zmcp_decode_failure Mock.garbled_tool Json.loads "search"
           ["hemoglobin"] None Mock.w0
           (mkCompleted 0 "Found 3 items" EmptyString) JSONDecodeError);
    reflexivity.
Defined.

Lemma run_zmcp_default_json_witness :
  spawned (snd (run_zmcp Mock.search_tool Json.loads "search" ["hemoglobin"] None
                  Mock.w0)) =
  [["zmcp"; "search"; "hemoglobin"; "--json"]]
  /\ fst (run_zmcp Mock.search_tool Json.loads "search" ["hemoglobin"] None Mock.w0) =
     Json.loads Mock.hemoglobin_doc.
Proof.
  destruct (run_zmcp_default_json Mock.search_tool Json.loads "search"
              ["hemoglobin"] Mock.w0) as [_ [_ [Hcmd Hdec]]].
  split.
  - exact Hcmd.
  - apply (Hdec (mkCompleted 0 Mock.hemoglobin_doc EmptyString)); reflexivity.
Defined.

Lemma batch_one_failure_witness :
  exists structures w',
    batch_loop (Mock.batch_tool "2HHB" Mock.full_doc) Json.loads
      (["4HHB"; "1MBN"] ++ "2HHB" :: ["1UBQ"]) [] Mock.w0 = (Ok structures, w')
    /\ spawned w' =
       (spawned Mock.w0 ++ map fetch_cmd (["4HHB"; "1MBN"] ++ "2HHB" :: ["1UBQ"]))%list
    /\ List.length structures =
       (List.length (["4HHB"; "1MBN"] ++ "2HHB" :: ["1UBQ"]) - 1)%nat
    /\ Forall2 is_record_of (["4HHB"; "1MBN"] ++ ["1UBQ"]) structures.
Proof.
  apply (batch_one_failure (Mock.batch_tool "2HHB" Mock.full_doc) Json.loads
           ["4HHB"; "1MBN"] "2HHB" ["1UBQ"] Mock.w0).
  - intros i pdb_id Hi Hne.
    destruct i as [|[|[|[|i]]]]; cbn in Hi.
    + injection Hi as <-. eexists. split; reflexivity.
    + injection Hi as <-. eexists. split; reflexivity.
    + exfalso. apply Hne. reflexivity.
    + injection Hi as <-. eexists. split; reflexivity.
    + destruct i; discriminate Hi.
  - reflexivity.
Defined.

Lemma attachment_filters_witness :
  attachments_of
    (VList [Mock.attachment "chemical/x-pdb"; Mock.note;
            Mock.attachment "application/pdf"]) =
  Ok [Mock.attachment "chemical/x-pdb"; Mock.attachment "application/pdf"]
  /\ pdb_attachments_of
       [Mock.attachment "chemical/x-pdb"; Mock.attachment "application/pdf"] =
     Ok [Mock.attachment "chemical/x-pdb"].
Proof.
  apply (attachment_filters
           [Mock.attachment "chemical/x-pdb"; Mock.note;
            Mock.attachment "application/pdf"]).
  - repeat constructor.
  - repeat constructor.
Defined.

Lemma field_reads_witness :
  show_details Mock.search_tool Json.loads Mock.no_str
    (VDict [("item", VDict [("title", VStr "Hemoglobin structure");
                            ("itemType", VStr "journalArticle")]);
            ("children", VList [])]) Mock.w0 =
  (Ok tt,
   after_print Mock.w0
     [[Lit "Citation: "; Fmt (VStr "Hemoglobin structure")];
      [Lit "Type: "; Fmt (VStr "journalArticle")];
      [Lit "DOI: "; Fmt (VStr "N/A")];
      [Lit "Attachments: "; Fmt (VInt 0)]])
  /\ is_pdb (VDict [("itemType", VStr "attachment")]) = Ok false
  /\ (exists w',
        show_fetched (VDict [("pdbId", VStr "4HHB"); ("title", VStr "Hemoglobin")])
          "hemoglobin.pdb" Mock.w0 = (Raise (KeyError (VStr "authors")), w'))
  /\ (exists w',
        show_saved (VDict [("itemKey", VStr "ITEM1"); ("title", VStr "Myoglobin");
                           ("collection", VStr "Python Structures");
                           ("hasFile", VBool true)]) Mock.w0 =
        (Raise (KeyError (VStr "url")), w'))
  /\ summarize (1%Z, VDict [("title", VStr "Hemoglobin structure")]) Mock.w0 =
     (Raise (KeyError (VStr "key")), Mock.w0)
  /\ example4 Mock.zmcp_tool Json.loads Mock.no_str
       (VList (VDict [("title", VStr "Hemoglobin structure")] :: [])) Mock.w0 =
     (Raise (KeyError (VStr "key")),
      after_print Mock.w0
        [[Lit (newline ++ "Example 4: Get citation details")]; [Lit rule]])
  /\ show_details Mock.zmcp_tool Json.loads Mock.no_str
       (VDict [("children", VList [])]) Mock.w0 =
     (Raise (KeyError (VStr "item")), Mock.w0)
  /\ (exists w',
        show_details Mock.zmcp_tool Json.loads Mock.no_str
          (VDict [("item", VDict [("title", VStr "Hemoglobin structure")]);
                  ("children", VList [])]) Mock.w0 =
        (Raise (KeyError (VStr "itemType")), w'))
  /\ (exists w',
        show_details Mock.zmcp_tool Json.loads Mock.no_str
          (VDict [("item", VDict [("title", VStr "Hemoglobin structure");
                                  ("itemType", VStr "journalArticle")])]) Mock.w0 =
        (Raise (KeyError (VStr "children")), w'))
  /\ attachments_of
       (VList ([Mock.note] ++ VDict [("key", VStr "ATT9")] ::
               [Mock.attachment "chemical/x-pdb"])) =
     Raise (KeyError (VStr "itemType"))
  /\ download_first Mock.zmcp_tool Json.loads Mock.no_str
       (VDict [("key", VStr "ATT1")] :: []) Mock.w0 =
     (Raise (KeyError (VStr "filename")), Mock.w0)
  /\ download_first (Mock.always (mkCompleted 0 "{}" EmptyString)) Json.loads
       Mock.no_str
       (VDict [("key", VStr "ATT1"); ("filename", VStr "4hhb.pdb")] :: []) Mock.w0 =
     (Raise (KeyError (VStr "size")),
      after_spawn Mock.w0
        ["zmcp"; "download"; "ATT1"; py_format Mock.no_str (VStr "4hhb.pdb"); "--json"])
  /\ fetch_one (Mock.always (mkCompleted 0 (Json.text "{'pdbId':'4HHB'}") EmptyString))
       Json.loads "4HHB" [] Mock.w0 =
     (Raise (KeyError (VStr "title")), after_spawn Mock.w0 (fetch_cmd "4HHB"))
  /\ colab_pdb_workflow (Mock.always (mkCompleted 0 "{}" EmptyString)) Json.loads
       "4HHB" None Mock.w0 =
     (Raise (KeyError (VStr "itemKey")),
      after_spawn (after_spawn Mock.w0 (colab_fetch_cmd "4HHB")) (colab_save_cmd "4HHB"))
  /\ colab_pdb_workflow (Mock.always (mkCompleted 0 "{}" EmptyString)) Json.loads
       "4HHB" (Some false) Mock.w0 =
     (Raise (KeyError (VStr "fileSize")), after_spawn Mock.w0 (colab_fetch_cmd "4HHB")).
Proof.
  destruct field_reads
    as [H1 [H2 [H3 [H4 [H5 [H6 [H7 [H8 [H9 [H10 [H11 [H12 [H13 [H14 H15]]]]]]]]]]]]]].
  repeat apply conj.
  - apply (H1 Mock.search_tool Json.loads Mock.no_str _
             [("title", VStr "Hemoglobin structure");
              ("itemType", VStr "journalArticle")]); reflexivity.
  - apply H2. reflexivity.
  - apply H3; reflexivity.
  - apply H4; reflexivity.
  - apply H5. reflexivity.
  - apply H6. reflexivity.
  - apply H7. reflexivity.
  - apply (H8 Mock.zmcp_tool Json.loads Mock.no_str _
             [("title", VStr "Hemoglobin structure")]); reflexivity.
  - apply (H9 Mock.zmcp_tool Json.loads Mock.no_str _
             [("title", VStr "Hemoglobin structure");
              ("itemType", VStr "journalArticle")]); reflexivity.
  - apply H10; [repeat constructor | reflexivity].
  - apply H11. reflexivity.
  - apply (H12 _ Json.loads Mock.no_str _ [] "ATT1" (VStr "4hhb.pdb") []); reflexivity.
  - apply (H13 _ Json.loads "4HHB" [] [("pdbId", VStr "4HHB")]); reflexivity.
  - apply (H14 _ Json.loads "4HHB" None (VDict []) []);
      [left; reflexivity | reflexivity | reflexivity | reflexivity].
  - apply (H15 _ Json.loads "4HHB" []); reflexivity.
Defined.

Lemma search_summary_first_five_witness :
  exists lines,
    search_summary "hemoglobin" (VList Mock.six_items) Mock.w0 =
    (Ok tt,
     after_print Mock.w0
       (found_line (Z.of_nat (List.length Mock.six_items)) "hemoglobin" :: lines))
    /\ Forall2 summarizes (enumerate 1 (firstn 5 Mock.six_items)) lines
    /\ List.length lines = Nat.min 5 (List.length Mock.six_items).
Proof.
  apply (search_summary_first_five "hemoglobin" Mock.six_items Mock.w0).
  repeat constructor.
Defined.

(** The batch of Example 5 against a tool that fails for [2HHB]: three
    records, four processes, four printed lines. *)
Example batch_run :
  let r := batch_loop (Mock.batch_tool "2HHB" Mock.full_doc) Json.loads
             Mock.pdb_ids [] Mock.w0 in
  fst r =
  Ok [structure_record "4HHB" (VDict [("pdbId", VStr "4HHB");
                                      ("title", VStr "Structure 4HHB")]);
      structure_record "1MBN" (VDict [("pdbId", VStr "1MBN");
                                      ("title", VStr "Structure 1MBN")]);
      structure_record "1UBQ" (VDict [("pdbId", VStr "1UBQ");
                                      ("title", VStr "Structure 1UBQ")])]
  /\ spawned (snd r) = map fetch_cmd Mock.pdb_ids
  /\ nth_error (printed (snd r)) 2 =
     Some (failed_line "2HHB" (Exception "Command failed: Error: 2HHB not found"))
  /\ List.length (printed (snd r)) = 4%nat.
Proof. repeat split. Qed.

(** The argument lists of Example 1 and of a call with [json_output=False]. *)
Example argument_lists :
  build_cmd "fetch-pdb" ["4HHB"; "--output"; "hemoglobin.pdb"] (json_requested None) =
  ["zmcp"; "fetch-pdb"; "4HHB"; "--output"; "hemoglobin.pdb"; "--json"]
  /\ build_cmd "search" ["hemoglobin"] (json_requested (Some false)) =
     ["zmcp"; "search"; "hemoglobin"].
Proof. split; reflexivity. Qed.


(** ** Further properties of the script *)

(** *** The wrapper *)

(** X1: when [subprocess.run] itself raises, for instance because the tool
    is not installed, [run_zmcp] lets that exception through as it is: it
    is not turned into the [Command failed] exception, nothing is decoded
    and nothing is printed. *)
Theorem run_zmcp_launch_failure (tool : tool_t) (json_loads : string -> result value)
  (command : string) (args : list string) (json_output : option bool)
  (w : world) (e : exn) :
  tool (spawned w) (build_cmd command args (json_requested json_output)) = Raise e ->
  run_zmcp tool json_loads command args json_output w =
  (Raise e, after_spawn w (build_cmd command args (json_requested json_output))).
Proof.
  intros Ht. rewrite run_zmcp_eq, Ht. reflexivity.
Qed.

Lemma run_zmcp_launch_failure_witness :
  run_zmcp Mock.missing_tool Json.loads "search" ["hemoglobin"] None Mock.w0 =
  (Raise OSError, after_spawn Mock.w0 ["zmcp"; "search"; "hemoglobin"; "--json"]).
Proof.
  apply (run_zmcp_launch_failure Mock.missing_tool Json.loads "search"
           ["hemoglobin"] None Mock.w0 OSError).
  reflexivity.
Defined.

(** X2: the decoder plays no part in a call with [json_output=False], nor
    in a call whose process exits with a non-zero status: with two
    different decoders such a call does the same. *)
Theorem run_zmcp_decoder_unused (tool : tool_t)
  (loads1 loads2 : string -> result value)
  (command : string) (args : list string) (json_output : option bool) (w : world) :
  json_requested json_output = false
  \/ exits_with_error tool (spawned w)
       (build_cmd command args (json_requested json_output)) = true ->
  run_zmcp tool loads1 command args json_output w =
  run_zmcp tool loads2 command args json_output w.
Proof.
  intros H. rewrite !run_zmcp_eq. f_equal.
  unfold exits_with_error in H.
  destruct (tool (spawned w) _) as [cp|e]; [|reflexivity].
  destruct (Z.eqb (returncode cp) 0); cbn [negb] in *; [|reflexivity].
  destruct H as [H|H]; [|discriminate]. rewrite H. reflexivity.
Qed.

Lemma run_zmcp_decoder_unused_witness :
  run_zmcp Mock.failing_tool Json.loads "fetch-pdb" ["9XXX"] None Mock.w0 =
  run_zmcp Mock.failing_tool (fun _ => Ok VNone) "fetch-pdb" ["9XXX"] None Mock.w0.
Proof.
  apply (run_zmcp_decoder_unused Mock.failing_tool Json.loads (fun _ => Ok VNone)
           "fetch-pdb" ["9XXX"] None Mock.w0).
  right. reflexivity.
Defined.

(** *** The two filters of Example 4 *)

Lemma comprehension_ok (cond : value -> result bool) (l : list value) :
  forall ys,
    comprehension cond l = Ok ys ->
    ys = filter (holds cond) l /\ Forall (fun x => exists b, cond x = Ok b) l.
Proof.
  induction l as [|x l IH]; intros ys H; cbn [comprehension] in H.
  - injection H as <-. split; [reflexivity | constructor].
  - destruct (cond x) as [b|e] eqn:Ex; [|discriminate].
    destruct (comprehension cond l) as [zs|e]; [|discriminate].
    destruct (IH zs eq_refl) as [-> Hall]. injection H as <-.
    split.
    + assert (Hb : holds cond x = b)
        by (unfold holds; rewrite Ex; destruct b; reflexivity).
      cbn [filter]. rewrite Hb. reflexivity.
    + constructor; [exists b; exact Ex | exact Hall].
Qed.

Lemma filter_subseq {A : Type} (p : A -> bool) (l : list A) : subseq (filter p l) l.
Proof.
  induction l as [|x l IH]; cbn [filter].
  - constructor.
  - destruct (p x); constructor; exact IH.
Qed.

Lemma subseq_trans {A : Type} (l1 l2 l3 : list A) :
  subseq l1 l2 -> subseq l2 l3 -> subseq l1 l3.
Proof.
  intros H12 H23. revert l1 H12.
  induction H23 as [|x l2 l3 _ IH|x l2 l3 _ IH]; intros l1 H12.
  - exact H12.
  - inversion H12; subst.
    + constructor. apply IH. assumption.
    + apply subseq_drop. apply IH. assumption.
  - apply subseq_drop. apply IH. exact H12.
Qed.

Lemma is_attachment_ok (c : value) (b : bool) :
  is_attachment c = Ok b ->
  has_field "itemType" c = true /\ b = item_type_is "attachment" c.
Proof.
  unfold is_attachment, has_field, item_type_is, getitem.
  destruct c as [| | | | |l|d]; try discriminate.
  destruct (dict_lookup "itemType" d) as [x|]; [|discriminate].
  intros H. injection H as <-. split; [reflexivity|]. destruct x; reflexivity.
Qed.

Lemma attachments_of_ok (cs atts : list value) :
  attachments_of (VList cs) = Ok atts ->
  Forall (fun c => has_field "itemType" c = true) cs
  /\ atts = filter (item_type_is "attachment") cs.
Proof.
  unfold attachments_of, py_iter. intros H.
  destruct (comprehension_ok _ _ _ H) as [-> Hall]. split.
  - eapply Forall_impl; [|exact Hall]. intros c [b Hb].
    apply (is_attachment_ok c b Hb).
  - apply filter_ext_in. intros c Hc.
    rewrite Forall_forall in Hall. destruct (Hall c Hc) as [b Hb].
    unfold holds. rewrite Hb.
    destruct (is_attachment_ok c b Hb) as [_ <-]. destruct b; reflexivity.
Qed.

(** X3: the first filter completes exactly when every child is a mapping
    with an [itemType]; what it then gives is the list of the children
    whose item type is the text [attachment], in their order. *)
Theorem attachments_of_exact (cs atts : list value) :
  attachments_of (VList cs) = Ok atts <->
  Forall (fun c => has_field "itemType" c = true) cs
  /\ atts = filter (item_type_is "attachment") cs.
Proof.
  split.
  - apply attachments_of_ok.
  - intros [Hall ->]. unfold attachments_of, py_iter.
    apply comprehension_filter.
    eapply Forall_impl; [|exact Hall]. intros c Hc. apply is_attachment_spec, Hc.
Qed.

Lemma attachments_of_exact_witness :
  Forall (fun c => has_field "itemType" c = true)
         [Mock.note; Mock.attachment "chemical/x-pdb"]
  /\ [Mock.attachment "chemical/x-pdb"] =
     filter (item_type_is "attachment") [Mock.note; Mock.attachment "chemical/x-pdb"].
Proof.
  apply (proj1 (attachments_of_exact [Mock.note; Mock.attachment "chemical/x-pdb"]
                  [Mock.attachment "chemical/x-pdb"])).
  reflexivity.
Defined.

(** X4: when both filters complete, the PDB attachments are children, in
    the order of the children, each with item type [attachment] and each
    passing the test of line 92; nothing is added or reordered. *)
Theorem pdb_attachments_among_children (cs atts pdbs : list value) :
  attachments_of (VList cs) = Ok atts ->
  pdb_attachments_of atts = Ok pdbs ->
  subseq pdbs cs
  /\ Forall (fun a => item_type_is "attachment" a = true /\ is_pdb a = Ok true) pdbs.
Proof.
  intros Hatts Hpdbs.
  apply attachments_of_ok in Hatts. destruct Hatts as [_ ->].
  unfold pdb_attachments_of in Hpdbs.
  destruct (comprehension_ok _ _ _ Hpdbs) as [-> _]. split.
  - eapply subseq_trans; apply filter_subseq.
  - apply Forall_forall. intros a Ha.
    apply filter_In in Ha. destruct Ha as [Ha Hp].
    apply filter_In in Ha. destruct Ha as [_ Hty]. split; [exact Hty|].
    unfold holds in Hp. destruct (is_pdb a) as [[|]|]; try discriminate.
    reflexivity.
Qed.

Lemma pdb_attachments_among_children_witness :
  subseq [Mock.attachment "chemical/x-pdb"]
         [Mock.note; Mock.attachment "application/pdf"; Mock.attachment "chemical/x-pdb"]
  /\ Forall (fun a => item_type_is "attachment" a = true /\ is_pdb a = Ok true)
            [Mock.attachment "chemical/x-pdb"].
Proof.
  apply (pdb_attachments_among_children
           [Mock.note; Mock.attachment "application/pdf";
            Mock.attachment "chemical/x-pdb"]
           [Mock.attachment "application/pdf"; Mock.attachment "chemical/x-pdb"]
           [Mock.attachment "chemical/x-pdb"]); reflexivity.
Defined.

(** *** The printed summaries *)

(** X5: Example 1 reads the six fields in the order [pdbId], [title],
    [authors], [method], [doi], [fileSize] and prints one line after each
    read. It stops at the first field that is missing, with [KeyError]
    for that field, or at the first value that cannot be printed, with
    [UnicodeEncodeError]; the lines printed before stay printed. *)
Theorem show_fetched_trace (d : list (string * value)) (output_file : string)
  (w : world) :
  show_fetched (VDict d) output_file w =
  (fst (field_trace (fetched_line output_file) d
          ["pdbId"; "title"; "authors"; "method"; "doi"; "fileSize"]),
   after_print w
     (snd (field_trace (fetched_line output_file) d
             ["pdbId"; "title"; "authors"; "method"; "doi"; "fileSize"]))).
Proof.
  unfold show_fetched, getitem. cbn [field_trace].
  do 6 read_print.
  rewrite ?after_print_app. reflexivity.
Qed.

Lemma for_each_app {A : Type} (body : A -> M unit) (l1 l2 : list A) :
  forall w,
    for_each (l1 ++ l2) body w =
    match for_each l1 body w with
    | (Ok _, w') => for_each l2 body w'
    | (Raise e, w') => (Raise e, w')
    end.
Proof.
  induction l1 as [|x l1 IH]; intros w.
  - reflexivity.
  - cbn [app for_each]. unfold bind.
    destruct (body x w) as [[[]|e] w']; [apply IH | reflexivity].
Qed.

Lemma enumerate_app (l1 l2 : list value) :
  forall start,
    enumerate start (l1 ++ l2) =
    (enumerate start l1 ++ enumerate (start + Z.of_nat (List.length l1)) l2)%list.
Proof.
  induction l1 as [|x l1 IH]; intros start.
  - cbn [app enumerate List.length Z.of_nat]. rewrite Z.add_0_r. reflexivity.
  - cbn [app enumerate List.length]. rewrite IH. do 3 f_equal. lia.
Qed.

Lemma summarize_raises (i : Z) (bad : value) (e : exn) (w : world) :
  getitem bad "title" = Raise e
  \/ (has_field "title" bad = true /\ getitem bad "key" = Raise e) ->
  summarize (i, bad) w = (Raise e, w).
Proof.
  intros [H|[Ht Hk]]; unfold summarize.
  - rewrite (bind_lift_raise _ _ _ _ H). reflexivity.
  - destruct (has_field_getitem _ _ Ht) as [t Et].
    rewrite (bind_lift_ok _ _ _ _ Et), (bind_lift_raise _ _ _ _ Hk). reflexivity.
Qed.

(** X6: when an item among the first five cannot be summarized, because
    its [title] or its [key] cannot be read, and the items before it have
    a title and a key that can be printed, the summary raises that error
    there: the header and the lines of the items before it are printed,
    and nothing after. *)
Theorem search_summary_stops (query : string) (pre : list value) (bad : value)
  (post : list value) (e : exn) (w : world) :
  (List.length pre < 5)%nat ->
  Forall (fun item => printable_field "title" item = true
                      /\ printable_field "key" item = true) pre ->
  getitem bad "title" = Raise e
  \/ (has_field "title" bad = true /\ getitem bad "key" = Raise e) ->
  exists lines,
    search_summary query (VList (pre ++ bad :: post)) w =
    (Raise e,
     after_print w
       (found_line (Z.of_nat (List.length (pre ++ bad :: post))) query :: lines))
    /\ Forall2 summarizes (enumerate 1 pre) lines.
Proof.
  intros Hlen Hpre Hbad.
  destruct (for_each_summarize (enumerate 1 pre) (enumerate_snd _ _ Hpre 1%Z)
              (after_print w
                 [found_line (Z.of_nat (List.length (pre ++ bad :: post))) query]))
    as [lines [Erun Hall]].
  exists lines. split; [|exact Hall].
  unfold search_summary. cbn [py_len]. rewrite bind_lift, bind_print by reflexivity.
  cbn [py_slice_to]. rewrite bind_lift. cbn [py_iter]. rewrite bind_lift.
  rewrite firstn_app, (firstn_all2 (n := 5) pre) by lia.
  destruct (5 - List.length pre)%nat as [|m] eqn:Em; [lia|].
  cbn [firstn]. unfold found_line in *. rewrite enumerate_app, for_each_app, Erun.
  cbn [enumerate for_each]. unfold bind.
  rewrite (summarize_raises _ bad e _ Hbad), after_print_app. reflexivity.
Qed.

Lemma search_summary_stops_witness :
  exists lines,
    search_summary "hemoglobin"
      (VList ([Mock.citation "1"; Mock.citation "2"] ++
              VDict [("title", VStr "No key")] :: [Mock.citation "4"])) Mock.w0 =
    (Raise (KeyError (VStr "key")),
     after_print Mock.w0
       (found_line
          (Z.of_nat (List.length ([Mock.citation "1"; Mock.citation "2"] ++
                                  VDict [("title", VStr "No key")] ::
                                  [Mock.citation "4"])))
          "hemoglobin" :: lines))
    /\ Forall2 summarizes (enumerate 1 [Mock.citation "1"; Mock.citation "2"]) lines.
Proof.
  apply (search_summary_stops "hemoglobin" [Mock.citation "1"; Mock.citation "2"]
           (VDict [("title", VStr "No key")]) [Mock.citation "4"]
           (KeyError (VStr "key")) Mock.w0).
  - cbn. lia.
  - repeat constructor.
  - right. split; reflexivity.
Defined.

Lemma summarize_bound (entry : Z * value) (w : world) :
  snd (summarize entry w) = w
  \/ exists ln, summarize entry w = (Ok tt, after_print w [ln]).
Proof.
  destruct entry as [i item]. unfold summarize.
  destruct (getitem item "title") as [t|e]; [|left; reflexivity].
  destruct (getitem item "key") as [k|e]; [|left; reflexivity].
  rewrite !bind_lift.
  destruct (forallb encodable
              [Lit "  "; Fmt (VInt i); Lit ". "; Fmt t; Lit " ("; Fmt k; Lit ")"])
    eqn:Hl.
  - right. eexists. apply print_ok. exact Hl.
  - left. rewrite (print_fail _ _ Hl). reflexivity.
Qed.

Lemma for_each_summarize_bound (es : list (Z * value)) :
  forall w, exists lines,
    snd (for_each es summarize w) = after_print w lines
    /\ (List.length lines <= List.length es)%nat.
Proof.
  induction es as [|entry es IH]; intros w.
  - exists []. rewrite after_print_nil. split; [reflexivity | cbn; lia].
  - cbn [for_each]. unfold bind.
    destruct (summarize_bound entry w) as [Hs|[ln Hs]].
    + destruct (summarize entry w) as [[[]|e] w1]; cbn [snd] in Hs; subst w1.
      * destruct (IH w) as [lines [E Hlen]]. exists lines.
        split; [exact E | cbn [List.length]; lia].
      * exists []. rewrite after_print_nil. split; [reflexivity | cbn; lia].
    + rewrite Hs. destruct (IH (after_print w [ln])) as [lines [E Hlen]].
      exists (ln :: lines). rewrite E, after_print_app.
      split; [reflexivity | cbn [List.length]; lia].
Qed.

(** X7: whatever the search returned, a list of any length, text, a
    mapping or anything else, the summary prints at most six lines, the
    header and five items, and starts no process. *)
Theorem search_summary_at_most_six (query : string) (items : value) (w : world) :
  exists lines,
    snd (search_summary query items w) = after_print w lines
    /\ (List.length lines <= 6)%nat.
Proof.
  unfold search_summary.
  destruct items as [| b | n | bits | s | l | d];
    try (exists []; rewrite after_print_nil; split; [reflexivity | cbn; lia]).
  - cbn [py_len]. rewrite bind_lift, bind_print by reflexivity.
    cbn [py_slice_to]. rewrite bind_lift. cbn [py_iter]. rewrite bind_lift.
    destruct (py_chars (str_join (firstn 5 (py_chars s)))) as [|c cs].
    + eexists. split; [reflexivity | cbn; lia].
    + eexists. split; [reflexivity | cbn; lia].
  - cbn [py_len]. rewrite bind_lift, bind_print by reflexivity.
    cbn [py_slice_to]. rewrite bind_lift. cbn [py_iter]. rewrite bind_lift.
    destruct (for_each_summarize_bound (enumerate 1 (firstn 5 l))
                (after_print w
                   [[Lit "Found "; Fmt (VInt (Z.of_nat (List.length l)));
                     Lit " citations matching '"; Txt query; Lit "':"]]))
      as [lines [E Hlen]].
    exists ([Lit "Found "; Fmt (VInt (Z.of_nat (List.length l)));
             Lit " citations matching '"; Txt query; Lit "':"] :: lines).
    split.
    + etransitivity; [exact E|]. rewrite after_print_app. reflexivity.
    + rewrite enumerate_length, length_firstn in Hlen. cbn [List.length]. lia.
  - cbn [py_len]. rewrite bind_lift, bind_print by reflexivity.
    eexists. split; [reflexivity | cbn; lia].
Qed.

(** *** How many processes a part of the script can start *)

Lemma sam_intro {A : Type} (m : M A) (n : nat) :
  (forall w, exists sp pr,
      snd (m w) = {| spawned := spawned w ++ sp; printed := printed w ++ pr |}
      /\ (List.length sp <= n)%nat) ->
  starts_at_most n m.
Proof. intros H. exact H. Qed.

Lemma world_same (w : world) :
  w = {| spawned := spawned w ++ []; printed := printed w ++ [] |}.
Proof. rewrite !app_nil_r. destruct w; reflexivity. Qed.

Lemma sam_ret {A : Type} (n : nat) (a : A) : starts_at_most n (ret a).
Proof.
  intros w. exists [], []. split; [apply world_same | cbn; lia].
Qed.

Lemma sam_raise {A : Type} (n : nat) (e : exn) : starts_at_most n (@raise A e).
Proof.
  intros w. exists [], []. split; [apply world_same | cbn; lia].
Qed.

Lemma sam_lift {A : Type} (n : nat) (r : result A) : starts_at_most n (lift r).
Proof.
  intros w. exists [], []. split; [apply world_same | cbn; lia].
Qed.

Lemma sam_print (n : nat) (l : line) : starts_at_most n (print l).
Proof.
  intros w. unfold print. destruct (forallb encodable l).
  - exists [], [l]. split; [|cbn; lia]. cbn [snd]. rewrite app_nil_r. reflexivity.
  - exists [], []. split; [apply world_same | cbn; lia].
Qed.

Lemma sam_run_zmcp (tool : tool_t) (json_loads : string -> result value)
  (command : string) (args : list string) (json_output : option bool) :
  starts_at_most 1 (run_zmcp tool json_loads command args json_output).
Proof.
  intros w. rewrite run_zmcp_spawned.
  exists [build_cmd command args (json_requested json_output)], [].
  split; [|cbn; lia]. unfold after_spawn. rewrite app_nil_r. reflexivity.
Qed.

Lemma sam_weaken {A : Type} (n n' : nat) (m : M A) :
  (n <= n')%nat -> starts_at_most n m -> starts_at_most n' m.
Proof.
  intros Hle H w. destruct (H w) as [sp [pr [E Hlen]]].
  exists sp, pr. split; [exact E | lia].
Qed.

Lemma sam_bind {A B : Type} (n1 n2 : nat) (m : M A) (k : A -> M B) :
  starts_at_most n1 m ->
  (forall a, starts_at_most n2 (k a)) ->
  starts_at_most (n1 + n2) (bind m k).
Proof.
  intros Hm Hk w. unfold bind.
  destruct (Hm w) as [sp1 [pr1 [E1 Hl1]]].
  destruct (m w) as [[a|e] w1]; cbn [snd] in E1; subst w1.
  - destruct (Hk a {| spawned := spawned w ++ sp1; printed := printed w ++ pr1 |})
      as [sp2 [pr2 [E2 Hl2]]].
    exists (sp1 ++ sp2)%list, (pr1 ++ pr2)%list. rewrite E2. cbn [spawned printed].
    rewrite !app_assoc. split; [reflexivity | rewrite length_app; lia].
  - exists sp1, pr1. split; [reflexivity | lia].
Qed.

Lemma sam_try {A : Type} (n1 n2 : nat) (m : M A) (handler : exn -> M A) :
  starts_at_most n1 m ->
  (forall e, starts_at_most n2 (handler e)) ->
  starts_at_most (n1 + n2) (try_except m handler).
Proof.
  intros Hm Hh w. unfold try_except.
  destruct (Hm w) as [sp1 [pr1 [E1 Hl1]]].
  destruct (m w) as [[a|e] w1]; cbn [snd] in E1; subst w1.
  - exists sp1, pr1. split; [reflexivity | lia].
  - destruct (Hh e {| spawned := spawned w ++ sp1; printed := printed w ++ pr1 |})
      as [sp2 [pr2 [E2 Hl2]]].
    exists (sp1 ++ sp2)%list, (pr1 ++ pr2)%list. rewrite E2. cbn [spawned printed].
    rewrite !app_assoc. split; [reflexivity | rewrite length_app; lia].
Qed.

Lemma sam_for_each {A : Type} (body : A -> M unit) (l : list A) :
  (forall x, starts_at_most 0 (body x)) -> starts_at_most 0 (for_each l body).
Proof.
  intros Hb. induction l as [|x l IH]; cbn [for_each].
  - apply sam_ret.
  - apply (sam_bind 0 0); [apply Hb | intros _; exact IH].
Qed.

Ltac sam_step :=
  cbv zeta;
  lazymatch goal with
  | |- starts_at_most (S ?m) (bind (run_zmcp _ _ _ _ _) _) =>
      apply (sam_bind 1 m); [apply sam_run_zmcp | intros]
  | |- starts_at_most ?n (bind (lift _) _) =>
      apply (sam_bind 0 n); [apply sam_lift | intros]
  | |- starts_at_most ?n (bind (print _) _) =>
      apply (sam_bind 0 n); [apply sam_print | intros]
  | |- starts_at_most _ (lift _) => apply sam_lift
  | |- starts_at_most _ (print _) => apply sam_print
  | |- starts_at_most _ (ret _) => apply sam_ret
  | |- starts_at_most _ (raise _) => apply sam_raise
  | |- starts_at_most _ (run_zmcp _ _ _ _ _) =>
      apply (sam_weaken 1); [lia | apply sam_run_zmcp]
  | |- starts_at_most _ (if ?c then _ else _) => destruct c
  | |- starts_at_most _ (match ?l with [] => _ | _ :: _ => _ end) => destruct l
  end.

Section Counting.

Variable tool : tool_t.
Variable json_loads : string -> result value.
Variable py_str : value -> string.

Lemma sam_show_fetched (data : value) (output_file : string) :
  starts_at_most 0 (show_fetched data output_file).
Proof. unfold show_fetched. repeat sam_step. Qed.

Lemma sam_search_summary (query : string) (items : value) :
  starts_at_most 0 (search_summary query items).
Proof.
  unfold search_summary. repeat sam_step.
  apply sam_for_each. intros [i item]. unfold summarize. repeat sam_step.
Qed.

Lemma sam_download_first (pdb_attachments : list value) :
  starts_at_most 1 (download_first tool json_loads py_str pdb_attachments).
Proof. unfold download_first. repeat sam_step. Qed.

Lemma sam_show_details (details : value) :
  starts_at_most 1 (show_details tool json_loads py_str details).
Proof.
  unfold show_details. repeat sam_step. apply sam_download_first.
Qed.

Lemma sam_example1 : starts_at_most 1 (example1 tool json_loads).
Proof. unfold example1. repeat sam_step. apply sam_show_fetched. Qed.

Lemma sam_show_saved (data : value) : starts_at_most 0 (show_saved data).
Proof. unfold show_saved. repeat sam_step. Qed.

Lemma sam_example2 : starts_at_most 1 (example2 tool json_loads).
Proof. unfold example2. repeat sam_step. apply sam_show_saved. Qed.

Lemma sam_example3 : starts_at_most 1 (example3 tool json_loads).
Proof.
  unfold example3. repeat sam_step.
  apply (sam_bind 0 0); [apply sam_search_summary | intros; apply sam_ret].
Qed.

Lemma sam_example4 (items : value) :
  starts_at_most 2 (example4 tool json_loads py_str items).
Proof.
  unfold example4. repeat sam_step. apply (sam_weaken 1); [lia|].
  apply sam_show_details.
Qed.

End Counting.

(** *** Example 4 *)

Section DetailsMore.

Variable tool : tool_t.
Variable json_loads : string -> result value.
Variable py_str : value -> string.

(** X8: of the PDB attachments only the first is downloaded: the one
    process started is [download] with that attachment's key and, as output
    path, the text of its [filename]; the attachments after it change
    nothing. *)
Theorem download_first_only (first : value) (rest : list value)
  (key : string) (filename : value) (w : world) :
  getitem first "key" = Ok (VStr key) ->
  getitem first "filename" = Ok filename ->
  download_first tool json_loads py_str (first :: rest) w =
  download_first tool json_loads py_str [first] w
  /\ spawned (snd (download_first tool json_loads py_str (first :: rest) w)) =
     (spawned w ++ [["zmcp"; "download"; key; py_format py_str filename; "--json"]])%list.
Proof.
  intros Hk Hf. split; [reflexivity|].
  unfold download_first.
  rewrite (bind_lift_ok _ _ _ _ Hk), (bind_lift_ok _ _ _ _ Hf). cbv zeta.
  cbn [as_arg]. rewrite bind_lift.
  unfold bind at 1. rewrite run_zmcp_eq.
  destruct (match tool (spawned w) _ with Ok _ => _ | Raise e => Raise e end)
    as [download_result|e]; [|reflexivity].
  destruct (getitem download_result "size") as [size|e]; [|reflexivity].
  rewrite bind_lift. unfold print. destruct (forallb encodable _); reflexivity.
Qed.

(** X9: when the search result is a non-empty list whose first item has a
    text [key], Example 4 first starts [get] with that key and [--json],
    and after it at most one more process; the items after the first
    change nothing. *)
Theorem example4_first_item (first : value) (rest : list value) (key : string)
  (w : world) :
  getitem first "key" = Ok (VStr key) ->
  example4 tool json_loads py_str (VList (first :: rest)) w =
  example4 tool json_loads py_str (VList [first]) w
  /\ exists more pr,
       snd (example4 tool json_loads py_str (VList (first :: rest)) w) =
       {| spawned := spawned w ++ ["zmcp"; "get"; key; "--json"] :: more;
          printed := printed w ++ pr |}
       /\ (List.length more <= 1)%nat.
Proof.
  intros Hk. split; [reflexivity|].
  unfold example4. rewrite !bind_print by reflexivity.
  cbn [py_truthy getitem0]. rewrite bind_lift, (bind_lift_ok _ _ _ _ Hk).
  cbn [as_arg]. rewrite bind_lift. unfold bind at 1. rewrite run_zmcp_eq.
  change (build_cmd "get" [key] (json_requested None))
    with ["zmcp"; "get"; key; "--json"].
  destruct (match tool _ _ with Ok _ => _ | Raise e => Raise e end)
    as [details|e].
  - destruct (sam_show_details tool json_loads py_str details
                (after_spawn (after_print (after_print w
                   [[Lit (newline ++ "Example 4: Get citation details")]])
                   [[Lit rule]]) ["zmcp"; "get"; key; "--json"]))
      as [more [pr [E Hlen]]].
    exists more, ([Lit (newline ++ "Example 4: Get citation details")] ::
                  [Lit rule] :: pr).
    split; [|exact Hlen]. etransitivity; [exact E|].
    cbn [spawned printed after_spawn after_print].
    rewrite <- !app_assoc. reflexivity.
  - exists [], [[Lit (newline ++ "Example 4: Get citation details")]; [Lit rule]].
    cbn [snd]. unfold after_spawn, after_print. cbn [spawned printed].
    rewrite <- !app_assoc. split; [reflexivity | cbn; lia].
Qed.

End DetailsMore.

Lemma download_first_only_witness :
  download_first Mock.zmcp_tool Json.loads Mock.no_str
    [VDict [("key", VStr "ATT2"); ("filename", VStr "4hhb.pdb")];
     VDict [("key", VStr "ATT3"); ("filename", VStr "other.pdb")]] Mock.w0 =
  download_first Mock.zmcp_tool Json.loads Mock.no_str
    [VDict [("key", VStr "ATT2"); ("filename", VStr "4hhb.pdb")]] Mock.w0
  /\ spawned
       (snd (download_first Mock.zmcp_tool Json.loads Mock.no_str
               [VDict [("key", VStr "ATT2"); ("filename", VStr "4hhb.pdb")];
                VDict [("key", VStr "ATT3"); ("filename", VStr "other.pdb")]]
               Mock.w0)) =
     (spawned Mock.w0 ++
      [["zmcp"; "download"; "ATT2"; py_format Mock.no_str (VStr "4hhb.pdb"); "--json"]])%list.
Proof.
  apply (download_first_only Mock.zmcp_tool Json.loads Mock.no_str
           (VDict [("key", VStr "ATT2"); ("filename", VStr "4hhb.pdb")])
           [VDict [("key", VStr "ATT3"); ("filename", VStr "other.pdb")]]
           "ATT2" (VStr "4hhb.pdb") Mock.w0); reflexivity.
Defined.

Lemma example4_first_item_witness :
  example4 Mock.zmcp_tool Json.loads Mock.no_str
    (VList (Mock.citation "1" :: [Mock.citation "2"])) Mock.w0 =
  example4 Mock.zmcp_tool Json.loads Mock.no_str (VList [Mock.citation "1"]) Mock.w0
  /\ exists more pr,
       snd (example4 Mock.zmcp_tool Json.loads Mock.no_str
              (VList (Mock.citation "1" :: [Mock.citation "2"])) Mock.w0) =
       {| spawned := spawned Mock.w0 ++ ["zmcp"; "get"; "KEY1"; "--json"] :: more;
          printed := printed Mock.w0 ++ pr |}
       /\ (List.length more <= 1)%nat.
Proof.
  apply (example4_first_item Mock.zmcp_tool Json.loads Mock.no_str
           (Mock.citation "1") [Mock.citation "2"] "KEY1" Mock.w0).
  reflexivity.
Defined.

(** *** The batch loop, whatever the tool does *)

Section BatchMore.

Variable tool : tool_t.
Variable json_loads : string -> result value.

Lemma collected_subseq (l : list string) :
  forall hist, exists kept,
    subseq kept l /\ Forall2 is_record_of kept (collected tool json_loads l hist).
Proof.
  induction l as [|a l IH]; intros hist.
  - exists []. split; constructor.
  - destruct (IH (hist ++ [fetch_cmd a])%list) as [kept [Hsub Hrec]].
    cbn [collected]. destruct (fetched tool json_loads hist a) as [data|].
    + exists (a :: kept). split; [constructor; exact Hsub|].
      cbn [app]. constructor; [exists data; reflexivity | exact Hrec].
    + exists kept. split; [apply subseq_drop; exact Hsub | exact Hrec].
Qed.

(** X10: the batch loop never raises, whatever the tool and the decoder
    do. It starts one process for every identifier, in the order of the
    list, prints one line for every identifier, keeps the records it was
    given, and adds records only for identifiers of the list, in their
    order. *)
Theorem batch_loop_never_aborts (pdb_ids : list string) (structures : list value)
  (w : world) :
  exists added lines kept,
    batch_loop tool json_loads pdb_ids structures w =
    (Ok (structures ++ added)%list,
     {| spawned := spawned w ++ map fetch_cmd pdb_ids;
        printed := printed w ++ lines |})
    /\ List.length lines = List.length pdb_ids
    /\ subseq kept pdb_ids
    /\ Forall2 is_record_of kept added.
Proof.
  destruct (batch_loop_eq tool json_loads pdb_ids structures w)
    as [lines [Erun Hlen]].
  destruct (collected_subseq pdb_ids (spawned w)) as [kept [Hsub Hrec]].
  exists (collected tool json_loads pdb_ids (spawned w)), lines, kept.
  repeat split; assumption.
Qed.

Lemma collected_none (l : list string) :
  forall hist,
    (forall i pdb_id,
        nth_error l i = Some pdb_id ->
        fetched tool json_loads (hist ++ map fetch_cmd (firstn i l)) pdb_id = None) ->
    collected tool json_loads l hist = [].
Proof.
  induction l as [|a l IH]; intros hist H.
  - reflexivity.
  - cbn [collected].
    pose proof (H 0%nat a eq_refl) as H0.
    cbn [firstn map] in H0. rewrite app_nil_r in H0. rewrite H0. cbn [app].
    apply IH. intros i pdb_id Hi.
    specialize (H (S i) pdb_id Hi). cbn [firstn map] in H.
    rewrite <- app_assoc. exact H.
Qed.

(** X11: when every invocation of the batch exits with a non-zero status,
    the loop still completes, having attempted every identifier, and the
    list of structures is the one it started with. *)
Theorem batch_loop_all_fail (pdb_ids : list string) (structures : list value)
  (w : world) :
  (forall i pdb_id,
      nth_error pdb_ids i = Some pdb_id ->
      exits_nonzero tool (hist_at w pdb_ids i) pdb_id = true) ->
  exists lines,
    batch_loop tool json_loads pdb_ids structures w =
    (Ok structures,
     {| spawned := spawned w ++ map fetch_cmd pdb_ids;
        printed := printed w ++ lines |})
    /\ List.length lines = List.length pdb_ids.
Proof.
  intros H.
  destruct (batch_loop_eq tool json_loads pdb_ids structures w)
    as [lines [Erun Hlen]].
  exists lines. split; [|exact Hlen].
  rewrite Erun, collected_none, app_nil_r; [reflexivity|].
  intros i pdb_id Hi. apply exits_nonzero_not_fetched. apply (H i pdb_id Hi).
Qed.

(** X12: when every invocation of the batch exits with status zero and
    decodes to a mapping with a [pdbId] and a [title] that can be sliced,
    the loop adds one record for every identifier, in the order of the
    list. *)
Theorem batch_loop_all_succeed (pdb_ids : list string) (structures : list value)
  (w : world) :
  (forall i pdb_id,
      nth_error pdb_ids i = Some pdb_id ->
      exists data,
        invocation_succeeds tool json_loads (hist_at w pdb_ids i) pdb_id = Some data
        /\ printable data = true) ->
  exists added w',
    batch_loop tool json_loads pdb_ids structures w = (Ok (structures ++ added)%list, w')
    /\ Forall2 is_record_of pdb_ids added
    /\ List.length added = List.length pdb_ids.
Proof.
  intros H.
  destruct (batch_loop_eq tool json_loads pdb_ids structures w)
    as [lines [Erun _]].
  assert (Hrec : Forall2 is_record_of pdb_ids
                   (collected tool json_loads pdb_ids (spawned w))).
  { apply collected_all. intros i pdb_id Hi.
    destruct (H i pdb_id Hi) as [data [Einv Hp]].
    unfold hist_at in Einv. unfold fetched. rewrite Einv, Hp. discriminate. }
  eexists. eexists. split; [exact Erun|]. split; [exact Hrec|].
  symmetry. apply (Forall2_length Hrec).
Qed.

(** X14: Example 5 always completes: it starts the four fetches in the
    order [4HHB], [1MBN], [2HHB], [1UBQ], prints its two header lines, one
    line for each identifier, and then the count of the structures it
    returns, which are at most four. *)
Theorem example5_completes (w : world) :
  exists structures lines,
    example5 tool json_loads w =
    (Ok structures,
     {| spawned := spawned w ++ map fetch_cmd ["4HHB"; "1MBN"; "2HHB"; "1UBQ"];
        printed :=
          printed w ++
          [Lit (newline ++ "Example 5: Batch process PDB structures")] ::
          [Lit rule] ::
          lines ++
          [[Lit (newline ++ check_mark ++ " Fetched ");
            Fmt (VInt (Z.of_nat (List.length structures))); Lit " structures"];
           [Lit "Ready for analysis with BioPython, PyMOL, etc."]] |})
    /\ List.length lines = 4%nat
    /\ (List.length structures <= 4)%nat.
Proof.
  destruct (batch_loop_eq tool json_loads ["4HHB"; "1MBN"; "2HHB"; "1UBQ"] []
              (after_print (after_print w
                 [[Lit (newline ++ "Example 5: Batch process PDB structures")]])
                 [[Lit rule]]))
    as [lines [Erun Hlen]].
  destruct (collected_subseq ["4HHB"; "1MBN"; "2HHB"; "1UBQ"]
              (spawned (after_print (after_print w
                 [[Lit (newline ++ "Example 5: Batch process PDB structures")]])
                 [[Lit rule]])))
    as [kept [Hsub Hrec]].
  set (added := collected tool json_loads ["4HHB"; "1MBN"; "2HHB"; "1UBQ"] _) in *.
  exists added, lines. split; [|split; [exact Hlen|]].
  - unfold example5. rewrite !bind_print by reflexivity. cbv beta zeta.
    rewrite (bind_ok _ _ _ _ _ Erun). cbn [app]. rewrite !bind_print by reflexivity.
    unfold ret, after_print. cbn [spawned printed].
    rewrite <- !app_assoc. reflexivity.
  - rewrite <- (Forall2_length Hrec).
    clear - Hsub. change 4%nat with (List.length ["4HHB"; "1MBN"; "2HHB"; "1UBQ"]).
    induction Hsub; cbn [List.length]; lia.
Qed.

End BatchMore.

Lemma batch_loop_all_fail_witness :
  exists lines,
    batch_loop Mock.failing_tool Json.loads Mock.pdb_ids [] Mock.w0 =
    (Ok [],
     {| spawned := spawned Mock.w0 ++ map fetch_cmd Mock.pdb_ids;
        printed := printed Mock.w0 ++ lines |})
    /\ List.length lines = List.length Mock.pdb_ids.
Proof.
  apply (batch_loop_all_fail Mock.failing_tool Json.loads Mock.pdb_ids [] Mock.w0).
  intros i pdb_id _. reflexivity.
Defined.

Lemma batch_loop_all_succeed_witness :
  exists added w',
    batch_loop Mock.zmcp_tool Json.loads Mock.pdb_ids [] Mock.w0 =
    (Ok ([] ++ added)%list, w')
    /\ Forall2 is_record_of Mock.pdb_ids added
    /\ List.length added = List.length Mock.pdb_ids.
Proof.
  apply (batch_loop_all_succeed Mock.zmcp_tool Json.loads Mock.pdb_ids [] Mock.w0).
  intros i pdb_id Hi.
  destruct i as [|[|[|[|i]]]]; cbn in Hi.
  - injection Hi as <-. eexists. split; reflexivity.
  - injection Hi as <-. eexists. split; reflexivity.
  - injection Hi as <-. eexists. split; reflexivity.
  - injection Hi as <-. eexists. split; reflexivity.
  - destruct i; discriminate Hi.
Defined.

(** *** The Colab workflow *)

Section Colab.

Variable tool : tool_t.
Variable json_loads : string -> result value.

(** X15: when the fetch of the workflow fails, by a non-zero status, an
    undecodable output or a process that cannot be started, the workflow
    raises that error: [save-pdb] is never started, nothing is printed and
    no path is returned. *)
Theorem colab_fetch_failure (pdb_id : string) (save_to_zotero : option bool)
  (w : world) (e : exn) :
  fst (run_zmcp tool json_loads "fetch-pdb"
         [pdb_id; "--output"; "/content/" ++ pdb_id ++ ".pdb"] None w) = Raise e ->
  colab_pdb_workflow tool json_loads pdb_id save_to_zotero w =
  (Raise e, after_spawn w (colab_fetch_cmd pdb_id)).
Proof.
  intros H. unfold colab_pdb_workflow. cbv zeta.
  apply bind_raise.
  rewrite (surjective_pairing (run_zmcp _ _ _ _ _ _)), H, run_zmcp_spawned.
  reflexivity.
Qed.

(** X16: with [save_to_zotero] left out or true, a workflow whose two
    calls succeed, for an identifier that can be printed and a saved
    result whose [itemKey] can be printed, starts the fetch and then
    [save-pdb] into the collection [Colab Structures], prints one line
    with the identifier and the saved item's key, and returns the path
    [/content/<id>.pdb]; the fetched result is not looked at. *)
Theorem colab_fetch_and_save (pdb_id : string) (save_to_zotero : option bool)
  (w : world) (data zotero_result item_key : value) :
  save_to_zotero = None \/ save_to_zotero = Some true ->
  fst (run_zmcp tool json_loads "fetch-pdb"
         [pdb_id; "--output"; "/content/" ++ pdb_id ++ ".pdb"] None w) = Ok data ->
  fst (run_zmcp tool json_loads "save-pdb"
         [pdb_id; "--collection"; "Colab Structures"] None
         (after_spawn w (colab_fetch_cmd pdb_id))) = Ok zotero_result ->
  getitem zotero_result "itemKey" = Ok item_key ->
  printable_value (VStr pdb_id) = true ->
  printable_value item_key = true ->
  colab_pdb_workflow tool json_loads pdb_id save_to_zotero w =
  (Ok ("/content/" ++ pdb_id ++ ".pdb"),
   {| spawned := spawned w ++ [colab_fetch_cmd pdb_id; colab_save_cmd pdb_id];
      printed := printed w ++ [colab_saved_line pdb_id item_key] |}).
Proof.
  intros Hsave Hfetch Hzr Hkey Hid Hp.
  assert (Hs : match save_to_zotero with Some b => b | None => true end = true)
    by (destruct Hsave as [->| ->]; reflexivity).
  unfold colab_pdb_workflow. cbv zeta. rewrite Hs.
  apply result_and_world in Hfetch. rewrite run_zmcp_spawned in Hfetch.
  rewrite (bind_ok _ _ _ _ _ Hfetch).
  apply result_and_world in Hzr. rewrite run_zmcp_spawned in Hzr.
  erewrite bind_ok; [reflexivity|].
  rewrite (bind_ok _ _ _ _ _ Hzr), (bind_lift_ok _ _ _ _ Hkey).
  rewrite print_ok by line_ok.
  unfold after_print, after_spawn, colab_saved_line. cbn [spawned printed].
  rewrite <- !app_assoc. reflexivity.
Qed.

(** X17: with [save_to_zotero=False] a workflow whose fetch succeeds
    starts no second process; it reads [fileSize] from the fetched result
    and prints one line before it returns the path; it raises the error of
    the read when the field cannot be read, and [UnicodeEncodeError] when
    the identifier or the value cannot be printed. *)
Theorem colab_fetch_only (pdb_id : string) (w : world) (data : value) :
  fst (run_zmcp tool json_loads "fetch-pdb"
         [pdb_id; "--output"; "/content/" ++ pdb_id ++ ".pdb"] None w) = Ok data ->
  colab_pdb_workflow tool json_loads pdb_id (Some false) w =
  match getitem data "fileSize" with
  | Ok size =>
      if printable_value (VStr pdb_id) && printable_value size then
        (Ok ("/content/" ++ pdb_id ++ ".pdb"),
         after_print (after_spawn w (colab_fetch_cmd pdb_id))
           [colab_fetched_line pdb_id size])
      else (Raise UnicodeEncodeError, after_spawn w (colab_fetch_cmd pdb_id))
  | Raise e => (Raise e, after_spawn w (colab_fetch_cmd pdb_id))
  end.
Proof.
  intros Hfetch. unfold colab_pdb_workflow. cbv beta iota zeta.
  apply result_and_world in Hfetch. rewrite run_zmcp_spawned in Hfetch.
  rewrite (bind_ok _ _ _ _ _ Hfetch).
  destruct (getitem data "fileSize") as [size|e]; [|reflexivity].
  destruct (printable_value (VStr pdb_id) && printable_value size) eqn:Hp.
  - erewrite bind_ok; [reflexivity|].
    rewrite bind_lift. unfold colab_fetched_line. apply print_ok.
    cbn [forallb encodable andb]. rewrite andb_true_r. exact Hp.
  - apply bind_raise. rewrite bind_lift. apply print_fail.
    cbn [forallb encodable andb]. rewrite andb_true_r. exact Hp.
Qed.

End Colab.

Lemma colab_fetch_failure_witness :
  colab_pdb_workflow Mock.failing_tool Json.loads "9XXX" None Mock.w0 =
  (Raise (Exception ("Command failed: " ++ "Error: PDB entry 9XXX not found" ++ newline)),
   after_spawn Mock.w0 (colab_fetch_cmd "9XXX")).
Proof.
  apply (colab_fetch_failure Mock.failing_tool Json.loads "9XXX" None Mock.w0).
  reflexivity.
Defined.

Lemma colab_fetch_and_save_witness :
  colab_pdb_workflow Mock.zmcp_tool Json.loads "4HHB" None Mock.w0 =
  (Ok ("/content/" ++ "4HHB" ++ ".pdb"),
   {| spawned := spawned Mock.w0 ++ [colab_fetch_cmd "4HHB"; colab_save_cmd "4HHB"];
      printed := printed Mock.w0 ++ [colab_saved_line "4HHB" (VStr "ITEM1")] |}).
Proof.
  eapply (colab_fetch_and_save Mock.zmcp_tool Json.loads "4HHB" None Mock.w0).
  - left. reflexivity.
  - reflexivity.
  - reflexivity.
  - reflexivity.
  - reflexivity.
  - reflexivity.
Defined.

Lemma colab_fetch_only_witness :
  colab_pdb_workflow Mock.zmcp_tool Json.loads "4HHB" (Some false) Mock.w0 =
  (Ok ("/content/" ++ "4HHB" ++ ".pdb"),
   after_print (after_spawn Mock.w0 (colab_fetch_cmd "4HHB"))
     [colab_fetched_line "4HHB" (VInt 473000)]).
Proof.
  apply (colab_fetch_only Mock.zmcp_tool Json.loads "4HHB" Mock.w0
           (VDict [("pdbId", VStr "4HHB"); ("title", VStr "Structure 4HHB");
                   ("authors", VStr "Fermi, G."); ("method", VStr "X-RAY DIFFRACTION");
                   ("doi", VStr "10.2210/pdb4HHB/pdb"); ("fileSize", VInt 473000)])).
  reflexivity.
Defined.

(** *** The script as a whole *)

Section Whole.

Variable tool : tool_t.
Variable json_loads : string -> result value.
Variable py_str : value -> string.

(** X18: outside the batch loop nothing catches an error: when the fetch
    of Example 1 exits with a non-zero status the script ends there with
    the [Command failed] exception, after its first two lines and that one
    process; no later example runs. *)
Theorem script_aborts_in_example1 (w : world) :
  exits_with_error tool (spawned w)
    ["zmcp"; "fetch-pdb"; "4HHB"; "--output"; "hemoglobin.pdb"; "--json"] = true ->
  exists msg,
    script tool json_loads py_str w =
    (Raise (Exception msg),
     {| spawned :=
          spawned w ++
          [["zmcp"; "fetch-pdb"; "4HHB"; "--output"; "hemoglobin.pdb"; "--json"]];
        printed := printed w ++ [[Lit "Example 1: Fetch PDB structure"]; [Lit rule]] |}).
Proof.
  unfold exits_with_error. intros H.
  destruct (tool (spawned w) _) as [cp|e] eqn:Et; [|discriminate].
  exists ("Command failed: " ++ stderr cp).
  unfold script. apply bind_raise.
  unfold example1. rewrite !bind_print by reflexivity. cbv beta zeta.
  apply bind_raise. rewrite run_zmcp_eq.
  change (build_cmd "fetch-pdb" ["4HHB"; "--output"; "hemoglobin.pdb"]
            (json_requested None))
    with ["zmcp"; "fetch-pdb"; "4HHB"; "--output"; "hemoglobin.pdb"; "--json"].
  unfold after_print at 1 2. cbn [spawned]. rewrite Et, H.
  unfold after_spawn, after_print. cbn [spawned printed].
  rewrite <- !app_assoc. reflexivity.
Qed.

Lemma sam_batch_loop (pdb_ids : list string) (structures : list value) :
  starts_at_most (List.length pdb_ids) (batch_loop tool json_loads pdb_ids structures).
Proof.
  intros w.
  destruct (batch_loop_eq tool json_loads pdb_ids structures w) as [lines [E _]].
  exists (map fetch_cmd pdb_ids), lines. rewrite E.
  split; [reflexivity | rewrite length_map; lia].
Qed.

Lemma sam_example5 : starts_at_most 4 (example5 tool json_loads).
Proof.
  unfold example5. repeat sam_step.
  apply (sam_bind 4 0); [apply sam_batch_loop | intros; repeat sam_step].
Qed.

(** X19: from start to end, however the tool answers and wherever the
    script stops, it starts at most nine processes, and what was printed
    or started before stays. *)
Theorem script_at_most_nine : starts_at_most 9 (script tool json_loads py_str).
Proof.
  unfold script.
  apply (sam_bind 1 8); [apply sam_example1 | intros _].
  apply (sam_bind 1 7); [apply sam_example2 | intros _].
  apply (sam_bind 1 6); [apply sam_example3 | intros items].
  apply (sam_bind 2 4); [apply sam_example4 | intros _].
  apply (sam_bind 4 0); [apply sam_example5 | intros _].
  repeat sam_step.
Qed.

End Whole.

Lemma script_aborts_in_example1_witness :
  exists msg,
    script Mock.failing_tool Json.loads Mock.no_str Mock.w0 =
    (Raise (Exception msg),
     {| spawned :=
          spawned Mock.w0 ++
          [["zmcp"; "fetch-pdb"; "4HHB"; "--output"; "hemoglobin.pdb"; "--json"]];
        printed :=
          printed Mock.w0 ++ [[Lit "Example 1: Fetch PDB structure"]; [Lit rule]] |}).
Proof.
  apply (script_aborts_in_example1 Mock.failing_tool Json.loads Mock.no_str Mock.w0).
  reflexivity.
Defined.

(** The whole script against a tool that answers every command: nine
    processes, and the download of the first PDB attachment only. *)
Example script_run :
  fst (script Mock.zmcp_tool Json.loads Mock.no_str Mock.w0) = Ok tt
  /\ spawned (snd (script Mock.zmcp_tool Json.loads Mock.no_str Mock.w0)) =
     [["zmcp"; "fetch-pdb"; "4HHB"; "--output"; "hemoglobin.pdb"; "--json"];
      ["zmcp"; "save-pdb"; "1MBN"; "--collection"; "Python Structures"; "--json"];
      ["zmcp"; "search"; "hemoglobin"; "--json"];
      ["zmcp"; "get"; "ABC123"; "--json"];
      ["zmcp"; "download"; "ATT2"; "4hhb.pdb"; "--json"];
      ["zmcp"; "fetch-pdb"; "4HHB"; "--output"; "4HHB.pdb"; "--json"];
      ["zmcp"; "fetch-pdb"; "1MBN"; "--output"; "1MBN.pdb"; "--json"];
      ["zmcp"; "fetch-pdb"; "2HHB"; "--output"; "2HHB.pdb"; "--json"];
      ["zmcp"; "fetch-pdb"; "1UBQ"; "--output"; "1UBQ.pdb"; "--json"]]
  /\ List.length (printed (snd (script Mock.zmcp_tool Json.loads Mock.no_str Mock.w0))) =
     39%nat.
Proof. vm_compute. repeat split. Qed.

(** X20: when the search returns an empty list, Example 3 prints a count
    of zero and no item line, and Example 4 after it prints its two header
    lines and stops: no [get] and no [download] is started. *)
Theorem empty_search_skips_details (tool : tool_t)
  (json_loads : string -> result value) (py_str : value -> string) (w : world) :
  fst (run_zmcp tool json_loads "search" ["hemoglobin"] None
         (after_print w [[Lit (newline ++ "Example 3: Search Zotero")]; [Lit rule]])) =
  Ok (VList []) ->
  bind (example3 tool json_loads) (example4 tool json_loads py_str) w =
  (Ok tt,
   {| spawned := spawned w ++ [["zmcp"; "search"; "hemoglobin"; "--json"]];
      printed :=
        printed w ++
        [[Lit (newline ++ "Example 3: Search Zotero")]; [Lit rule];
         found_line 0 "hemoglobin";
         [Lit (newline ++ "Example 4: Get citation details")]; [Lit rule]] |}).
Proof.
  intros H.
  pose proof (result_and_world _ _ _ H) as E. rewrite run_zmcp_spawned in E.
  erewrite bind_ok.
  2:{ unfold example3. rewrite !bind_print by reflexivity.
      rewrite after_print_app. cbv beta zeta.
      cbn [app]. erewrite bind_ok; [|exact E]. reflexivity. }
  unfold example4, after_spawn, after_print. cbn [py_truthy].
  rewrite !bind_print by reflexivity. unfold ret, after_print. cbn [spawned printed].
  rewrite <- !app_assoc. reflexivity.
Qed.

Lemma empty_search_skips_details_witness :
  bind (example3 (Mock.always (mkCompleted 0 "[]" EmptyString)) Json.loads)
       (example4 (Mock.always (mkCompleted 0 "[]" EmptyString)) Json.loads Mock.no_str)
       Mock.w0 =
  (Ok tt,
   {| spawned := spawned Mock.w0 ++ [["zmcp"; "search"; "hemoglobin"; "--json"]];
      printed :=
        printed Mock.w0 ++
        [[Lit (newline ++ "Example 3: Search Zotero")]; [Lit rule];
         found_line 0 "hemoglobin";
         [Lit (newline ++ "Example 4: Get citation details")]; [Lit rule]] |}).
Proof.
  apply (empty_search_skips_details (Mock.always (mkCompleted 0 "[]" EmptyString))
           Json.loads Mock.no_str Mock.w0).
  reflexivity.
Defined.

(** A fetched title that holds a lone surrogate cannot be printed: line
    112 raises inside the [try], the identifier gets no record, and the
    loop goes on. *)
Example batch_surrogate_run :
  let tool :=
    Mock.batch_tool "none"
      (fun pdb_id =>
         if String.eqb pdb_id "1MBN"
         then Json.text "{'pdbId':'1MBN','title':'\ud800'}"
         else Mock.full_doc pdb_id) in
  let r := batch_loop tool Json.loads ["4HHB"; "1MBN"; "2HHB"] [] Mock.w0 in
  Json.loads (Json.text "{'pdbId':'1MBN','title':'\ud800'}") =
  Ok (VDict [("pdbId", VStr "1MBN"); ("title", VStr Mock.surrogate)])
  /\ fst r =
     Ok [structure_record "4HHB" (VDict [("pdbId", VStr "4HHB");
                                         ("title", VStr "Structure 4HHB")]);
         structure_record "2HHB" (VDict [("pdbId", VStr "2HHB");
                                         ("title", VStr "Structure 2HHB")])]
  /\ nth_error (printed (snd r)) 1 = Some (failed_line "1MBN" UnicodeEncodeError)
  /\ List.length (spawned (snd r)) = 3%nat.
Proof. vm_compute. repeat split. Qed.

(** X21: in the batch, a fetch that succeeds with a [pdbId] or a sliced
    [title] that cannot be printed adds no record: line 112 raises
    [UnicodeEncodeError] inside the [try], the loop prints the failure
    line for the identifier with that error, and goes on with the
    structures unchanged. *)
Theorem batch_unprintable_result (tool : tool_t) (json_loads : string -> result value)
  (pdb_id : string) (structures : list value) (data id title short : value)
  (w : world) :
  fst (run_zmcp tool json_loads "fetch-pdb" [pdb_id; "--output"; pdb_id ++ ".pdb"]
         None w) = Ok data ->
  getitem data "pdbId" = Ok id ->
  getitem data "title" = Ok title ->
  py_slice_to 50 title = Ok short ->
  printable_value id && printable_value short = false ->
  batch_loop tool json_loads [pdb_id] structures w =
  (Ok structures,
   after_print (after_spawn w (fetch_cmd pdb_id))
     [failed_line pdb_id UnicodeEncodeError]).
Proof.
  intros Hrun Hid Htitle Hshort Hp.
  apply result_and_world in Hrun. rewrite run_zmcp_spawned in Hrun.
  cbn [batch_loop]. erewrite bind_ok; [reflexivity|].
  erewrite try_raise.
  2:{ unfold fetch_one. cbv zeta. rewrite (bind_ok _ _ _ _ _ Hrun).
      rewrite (bind_lift_ok _ _ _ _ Hid), (bind_lift_ok _ _ _ _ Htitle),
        (bind_lift_ok _ _ _ _ Hshort).
      apply bind_print_fail. cbn [forallb encodable andb].
      rewrite andb_true_r. exact Hp. }
  reflexivity.
Qed.

Lemma batch_unprintable_result_witness :
  batch_loop
    (Mock.always (mkCompleted 0 (Json.text "{'pdbId':'1MBN','title':'\ud800'}")
                    EmptyString))
    Json.loads ["1MBN"] [] Mock.w0 =
  (Ok [],
   after_print (after_spawn Mock.w0 (fetch_cmd "1MBN"))
     [failed_line "1MBN" UnicodeEncodeError]).
Proof.
  apply (batch_unprintable_result _ Json.loads "1MBN" []
           (VDict [("pdbId", VStr "1MBN"); ("title", VStr Mock.surrogate)])
           (VStr "1MBN") (VStr Mock.surrogate) (VStr Mock.surrogate) Mock.w0);
    reflexivity.
Defined.
